(** * RAG-LangGraph: the delegating agent, the RAG agent and the chart tool

    A shallow embedding of
      - [src/agents/delegating-agent.js]  (class [DelegatingAgent]),
      - [src/agents/rag-agent.js]         (class [RAGAgent]),
      - [src/tools/chart-tool.js]         (class [ChartTool]),
      - [src/llm/llm-config.js]           (class [LLMConfig], method [invoke]),
    followed by the properties of the router, of the adapters and of the
    composer that the specification states.

    Conventions.
      - A JavaScript string is a [string] of bytes (the UTF-8 encoding of the
        text).  Every keyword the code searches for is ASCII, and an ASCII
        byte never occurs inside a multi-byte UTF-8 sequence, so a byte-level
        substring test agrees with [String.prototype.includes] on them.
      - An [async] method is a computation in the monad [M]: it threads the
        trace of calls made to the external collaborators and either returns
        a value or throws (a rejected promise).
      - A JavaScript object is a record; [this] is the first argument of a
        method. *)

From Stdlib Require Import String Ascii List Bool Arith ZArith Lia.
Import ListNotations.
Open Scope list_scope.
Open Scope string_scope.

Set Implicit Arguments.

(** ** Strings *)

Module JSString.

(** The characters that cannot be written inside a string literal here. *)
Definition dquote : string := String "034"%char EmptyString.
Definition nl : string := String "010"%char EmptyString.

(** The lower case of an ASCII letter; every other byte is itself. *)
Definition lowerChar (c : ascii) : ascii :=
  let n := nat_of_ascii c in
  if ((65 <=? n)%nat && (n <=? 90)%nat)%bool then ascii_of_nat (n + 32) else c.

Fixpoint lowerASCII (s : string) : string :=
  match s with
  | EmptyString => EmptyString
  | String c s' => String (lowerChar c) (lowerASCII s')
  end.

(** [s.startsWith(p)] *)
Fixpoint startsWith (s p : string) : bool :=
  match p, s with
  | EmptyString, _ => true
  | String _ _, EmptyString => false
  | String c p', String d s' => Ascii.eqb c d && startsWith s' p'
  end.

(** The two characters outside ASCII whose lower case contains an ASCII
    letter, in UTF-8: U+0130 (capital I with dot above), which becomes "i"
    followed by U+0307, and U+212A (the Kelvin sign), which becomes "k". *)
Definition dottedI : string := String "196"%char (String "176"%char EmptyString).
Definition iDot : string :=
  String "i"%char (String "204"%char (String "135"%char EmptyString)).
Definition kelvin : string :=
  String "226"%char (String "132"%char (String "170"%char EmptyString)).

(** Replace every U+0130 and U+212A by its lower case; [skip] counts the
    bytes of the character being replaced that are still to be passed. *)
Fixpoint lowerSpecial (skip : nat) (s : string) : string :=
  match s with
  | EmptyString => EmptyString
  | String c s' =>
      match skip with
      | S n => lowerSpecial n s'
      | O =>
          if startsWith s dottedI then iDot ++ lowerSpecial 1 s'
          else if startsWith s kelvin then String "k"%char (lowerSpecial 2 s')
          else String c (lowerSpecial 0 s')
      end
  end.

(** [s.toLowerCase()].  The ASCII letters and the two characters above are
    lower-cased as JavaScript does, so the result has the ASCII characters
    of the JavaScript result, in the same runs; any other character outside
    ASCII is kept where JavaScript may replace it by its lower case, which
    is again outside ASCII.  Every text the code searches for in a
    lower-cased string is ASCII, so every search has the outcome it has in
    JavaScript.  The properties of the router below are stated on the
    lower-cased text. *)
Definition toLowerCase (s : string) : string :=
  lowerSpecial 0 (lowerASCII s).

(** [s.includes(sub)]: [sub] occurs in [s] at some position. *)
Fixpoint includes (s sub : string) : bool :=
  startsWith s sub ||
  match s with
  | EmptyString => false
  | String _ s' => includes s' sub
  end.

(** [l.join(sep)] on an array of strings. *)
Definition join (sep : string) (l : list string) : string :=
  String.concat sep l.

(** The truthiness of a string: only the empty string is falsy. *)
Definition truthy (s : string) : bool :=
  match s with EmptyString => false | String _ _ => true end.

End JSString.

Import JSString.

(** ** Errors, events and the monad of asynchronous methods *)

(** A thrown value: an [Error] object with its [message]. *)
Record Error := mkError { message : string }.

(** A chat message, as produced by [ChatPromptTemplate.formatMessages]. *)
Record Message := mkMessage { role : string; content : string }.

(** The calls that leave the process. *)
Inductive Event :=
| EvSearch (query tenant : string) (limit : nat)   (* weaviate.searchDocuments *)
| EvLLMInvoke (messages : list Message)            (* LLMConfig.invoke *)
| EvGenerate (prompt : string).                    (* Gemini generateContent *)

Definition Trace := list Event.

(** How a call ends: the value of a fulfilled promise or the reason of a
    rejected one. *)
Inductive outcome (A : Type) :=
| Returned (a : A)
| Thrown (e : Error).

Arguments Returned {A} a.
Arguments Thrown {A} e.

Definition M (A : Type) : Type := Trace -> outcome A * Trace.

Definition ret {A} (a : A) : M A := fun tr => (Returned a, tr).

Definition throw {A} (e : Error) : M A := fun tr => (Thrown e, tr).

Definition bind {A B} (m : M A) (k : A -> M B) : M B :=
  fun tr =>
    match m tr with
    | (Returned a, tr') => k a tr'
    | (Thrown e, tr') => (Thrown e, tr')
    end.

(** [try { body } catch (error) { handler }] *)
Definition try_catch {A} (body : M A) (handler : Error -> M A) : M A :=
  fun tr =>
    match body tr with
    | (Returned a, tr') => (Returned a, tr')
    | (Thrown e, tr') => handler e tr'
    end.

(** Record a call to a collaborator. *)
Definition emit (e : Event) : M unit := fun tr => (Returned tt, (tr ++ [e])%list).

(** Resume with what a collaborator answered. *)
Definition settle {A} (o : outcome A) : M A := fun tr => (o, tr).

(** Calling an async method without awaiting it: the method runs, and the
    caller holds the settled promise.  Of the tasks the composer starts only
    the RAG agent talks to a collaborator, so running each task to its end
    where it is started leaves the same trace as any interleaving. *)
Definition promise {A} (m : M A) : M (outcome A) :=
  fun tr => let '(o, tr') := m tr in (Returned o, tr').

(** [await Promise.all(promises)]: the array of values, or a rejection when
    some promise was rejected (here the first of the array; the one handler
    that can receive it, the [catch] of [processQuery], ignores which error
    it is). *)
Fixpoint all_outcomes {A} (promises : list (outcome A)) : outcome (list A) :=
  match promises with
  | [] => Returned []
  | Returned a :: rest =>
      match all_outcomes rest with
      | Returned l => Returned (a :: l)
      | Thrown e => Thrown e
      end
  | Thrown e :: _ => Thrown e
  end.

Definition Promise_all {A} (promises : list (outcome A)) : M (list A) :=
  settle (all_outcomes promises).

Declare Scope monad_scope.
Delimit Scope monad_scope with monad.
Notation "x <- m ;; k" := (bind m (fun x => k))
  (at level 61, m at next level, right associativity) : monad_scope.
Notation "m ;;; k" := (bind m (fun _ => k))
  (at level 61, right associativity) : monad_scope.
Open Scope monad_scope.

(** [array.forEach((x, index) => ...)] on a state that the callback updates. *)
Fixpoint forEach_from {A St} (f : A -> nat -> St -> St) (l : list A)
    (index : nat) (s : St) : St :=
  match l with
  | [] => s
  | x :: rest => forEach_from f rest (S index) (f x index s)
  end.

Definition forEach {A St} (f : A -> nat -> St -> St) (l : list A) (s : St) : St :=
  forEach_from f l 0 s.

(** ** Property lookup on an object literal *)

Module JSObject.

(** The names every object literal inherits from [Object.prototype]. *)
Definition inherited : list string :=
  [ "constructor"; "__defineGetter__"; "__defineSetter__"; "hasOwnProperty";
    "__lookupGetter__"; "__lookupSetter__"; "isPrototypeOf";
    "propertyIsEnumerable"; "toString"; "valueOf"; "__proto__";
    "toLocaleString" ].

(** What [obj[key]] evaluates to when it is not [undefined]: the value of an
    own property, or the member of [Object.prototype] of that name. *)
Inductive value (A : Type) :=
| Own (a : A)
| Inherited (name : string).

Arguments Own {A} a.
Arguments Inherited {A} name.

Fixpoint own {A} (props : list (string * A)) (key : string) : option A :=
  match props with
  | [] => None
  | (k, a) :: rest => if String.eqb k key then Some a else own rest key
  end.

(** [obj[key]], [None] standing for [undefined]. *)
Definition get {A} (props : list (string * A)) (key : string) : option (value A) :=
  match own props key with
  | Some a => Some (Own a)
  | None => if existsb (String.eqb key) inherited then Some (Inherited key) else None
  end.

End JSObject.

(** ** [ChartTool] (src/tools/chart-tool.js) *)

Module ChartTool.

Import JSObject.

(** The [data] object of a chart request; an absent property is [None]. *)
Record ChartData := mkChartData {
  labels : option (list string);
  values : option (list Z);
  label : option string
}.

(** A value property reads succeed on: a data object, or a member of
    [Object.prototype]. *)
Definition DataValue := value ChartData.

(** What [data.values] can be when it is not [undefined]: the array of a
    data object, or the builtin function [Object.values]. *)
Inductive Values :=
| Numbers (l : list Z)
| Object_values.

(** [data.labels], [data.values] and [data.label].  No member of
    [Object.prototype] has a property [labels] or [label]; one has a property
    [values]: the member "constructor" is the function [Object], and
    [Object.values] is a function. *)
Definition get_labels (d : DataValue) : option (list string) :=
  match d with Own o => labels o | Inherited _ => None end.
Definition get_values (d : DataValue) : option Values :=
  match d with
  | Own o => option_map Numbers (values o)
  | Inherited name =>
      if String.eqb name "constructor" then Some Object_values else None
  end.
Definition get_label (d : DataValue) : option string :=
  match d with Own o => label o | Inherited _ => None end.

(** The object [_call] destructures, for a [chartType] that is a string;
    [None] is [undefined] (or [null] for [data]). *)
Record Request := mkRequest {
  chartType : string;
  data : option DataValue;
  title : option string
}.

Inductive Input :=
| InputString (s : string)
| InputObject (o : Request).

(** The tool has no fields of its own; the record carries the builtin it
    calls: [JSON.parse] on a string input, read as a request. *)
Record t := mkChartTool { JSON_parse : string -> outcome Request }.

Record Dataset := mkDataset {
  dataset_label : string;
  dataset_data : Values;
  backgroundColor : value (list string);
  borderColor : option string;
  borderWidth : Z
}.

Record Data := mkData { data_labels : list string; datasets : list Dataset }.

Record TitleOptions := mkTitleOptions { title_display : bool; text : string }.
Record LegendOptions := mkLegendOptions { legend_display : bool; position : string }.
Record Plugins := mkPlugins { plugins_title : TitleOptions; legend : LegendOptions }.
Record Scales := mkScales { y_beginAtZero : bool }.
Record Options := mkOptions {
  responsive : bool;
  plugins : Plugins;
  scales : option Scales
}.

Record ChartConfig := mkChartConfig {
  type : string;
  config_data : Data;
  options : Options
}.

(** What [_call] resolves to. *)
Inductive Result :=
| Success (chartConfig : ChartConfig) (message : string)
| Failure (error : string) (message : string).

Definition success (r : Result) : bool :=
  match r with Success _ _ => true | Failure _ _ => false end.

Definition chartConfig (r : Result) : option ChartConfig :=
  match r with Success c _ => Some c | Failure _ _ => None end.

Definition palette5 : list string :=
  ["#FF6384"; "#36A2EB"; "#FFCE56"; "#4BC0C0"; "#9966FF"].

Definition colors : list (string * list string) :=
  [ ("bar", palette5);
    ("line", ["#36A2EB"]);
    ("pie", palette5);
    ("doughnut", palette5) ].

(** [colors[chartType] || colors.bar] *)
Definition getColors (chartType : string) : value (list string) :=
  match get colors chartType with
  | Some v => v
  | None => Own palette5
  end.

Definition sampleBar : ChartData :=
  mkChartData (Some ["January"; "February"; "March"; "April"; "May"])
              (Some [65; 59; 80; 81; 56]%Z) (Some "Sales Data").

Definition sampleData : list (string * ChartData) :=
  [ ("bar", sampleBar);
    ("line", mkChartData (Some ["Jan"; "Feb"; "Mar"; "Apr"; "May"])
                         (Some [12; 19; 3; 5; 2]%Z) (Some "Trend Data"));
    ("pie", mkChartData (Some ["Red"; "Blue"; "Yellow"; "Green"; "Purple"])
                        (Some [12; 19; 3; 5; 2]%Z) (Some "Distribution"));
    ("doughnut", mkChartData (Some ["Red"; "Blue"; "Yellow"; "Green"])
                             (Some [12; 19; 3; 5]%Z) (Some "Categories")) ].

(** [sampleData[chartType] || sampleData.bar] *)
Definition generateSampleData (chartType : string) : DataValue :=
  match get sampleData chartType with
  | Some v => v
  | None => Own sampleBar
  end.

(** [x || dflt] for an array or a function (truthy, also the empty array),
    and the destructuring default [x = dflt], which applies to [undefined]
    only. *)
Definition or_default {A} (x : option A) (dflt : A) : A :=
  match x with Some a => a | None => dflt end.

(** [x || dflt] for a string: the empty string is falsy. *)
Definition or_default_string (x : option string) (dflt : string) : string :=
  match x with
  | Some s => if truthy s then s else dflt
  | None => dflt
  end.

(** Reading [data.labels] when [data] is [undefined]. *)
Definition TypeError_labels : Error :=
  mkError "Cannot read properties of undefined (reading 'labels')".

Definition generateChartConfig (chartType : string) (data : option DataValue)
    (title : string) : outcome ChartConfig :=
  match data with
  | None => Thrown TypeError_labels
  | Some d =>
      Returned
        {| type := chartType;
           config_data :=
             {| data_labels := or_default (get_labels d) ["Label 1"; "Label 2"; "Label 3"];
                datasets :=
                  [ {| dataset_label := or_default_string (get_label d) "Dataset";
                       dataset_data := or_default (get_values d) (Numbers [10; 20; 30]%Z);
                       backgroundColor := getColors chartType;
                       borderColor :=
                         if String.eqb chartType "line" then Some "#36A2EB" else None;
                       borderWidth := 1 |} ] |};
           options :=
             {| responsive := true;
                plugins :=
                  {| plugins_title := {| title_display := true; text := title |};
                     legend := {| legend_display := true; position := "top" |} |};
                scales :=
                  if negb (String.eqb chartType "pie") && negb (String.eqb chartType "doughnut")
                  then Some {| y_beginAtZero := true |}
                  else None |} |}
  end.

(** [typeof input === 'string' ? JSON.parse(input) : input] *)
Definition readInput (this : t) (input : Input) : outcome Request :=
  match input with
  | InputString s => JSON_parse this s
  | InputObject o => Returned o
  end.

Definition _call (this : t) (input : Input) : M Result :=
  try_catch
    (request <- settle (readInput this input);;
     let chartType := chartType request in
     let data := data request in
     let title := or_default (title request) "Chart" in
     chartConfig <- settle (generateChartConfig chartType data title);;
     ret (Success chartConfig
            ("Generated " ++ chartType ++ " chart configuration successfully")))
    (fun error =>
       ret (Failure (message error) "Failed to generate chart configuration")).

Definition invoke (this : t) (input : Input) : M Result :=
  _call this input.

End ChartTool.

(** ** Documents and the store (src/database/weaviate-setup.js) *)

Module Document.

Record t := mk {
  fileId : string;
  question : string;
  answer : string;
  tenant : string
}.

End Document.

Module WeaviateSetup.

(** [this.client]: [None] when the client was not initialised; otherwise
    what [client.graphql.get()...withLimit(limit).do()] resolves to, read
    at [result.data.Get.QADocument] ([None] when that is [undefined]). *)
Record t := mk {
  client : option (nat -> outcome (option (list Document.t)))
}.

Definition mockData (tenant : string) : list Document.t :=
  [ Document.mk "doc001" "What is machine learning?"
      "Machine learning is a subset of artificial intelligence that enables computers to learn and improve from experience without being explicitly programmed."
      tenant;
    Document.mk "doc002" "How does a neural network work?"
      "A neural network is a series of algorithms that attempts to recognize underlying relationships in a set of data through a process that mimics the way the human brain operates."
      tenant ].

Definition searchDocuments (this : t) (query tenant : string) (limit : nat)
    : M (list Document.t) :=
  try_catch
    (match client this with
     | None => ret (mockData tenant)
     | Some run =>
         emit (EvSearch query tenant limit);;;
         QADocument <- settle (run limit);;
         ret (match QADocument with Some docs => docs | None => [] end)
     end)
    (fun _ => ret (mockData tenant)).

(** The stand-in documents of [fetchObjectsByFileIds]: one per identifier. *)
Definition mockObjects (fileIds : list string) (tenant : string) : list Document.t :=
  map (fun fileId =>
         Document.mk fileId ("Sample question for " ++ fileId)
                     ("Sample answer for " ++ fileId) tenant)
      fileIds.

(** The query sent to the client is the one of [searchDocuments], with
    [fileIds.length] as its limit (the trace records searches and
    language-model calls only). *)
Definition fetchObjectsByFileIds (this : t) (fileIds : list string) (tenant : string)
    : M (list Document.t) :=
  try_catch
    (match client this with
     | None => ret (mockObjects fileIds tenant)
     | Some run =>
         QADocument <- settle (run (length fileIds));;
         ret (match QADocument with Some docs => docs | None => [] end)
     end)
    (fun _ => ret (mockObjects fileIds tenant)).

End WeaviateSetup.

(** ** [LLMConfig] (src/llm/llm-config.js) *)

Module LLMConfig.

Record Reply := mkReply { reply_content : string }.

(** What [createLLM] stored in [this.llm]: the mock, or the wrapper around
    a Gemini model whose [generateContent] answers or fails. *)
Inductive Backend :=
| Mock
| Gemini (generateContent : string -> outcome string).

(** [mockReply] is the canned text the mock selects from the content of the
    last message (a computation on strings only); no property below depends
    on which text it is. *)
Record t := mk {
  backend : Backend;
  mockReply : string -> string
}.

Definition lastMessage (messages : list Message) : option Message :=
  nth_error messages (length messages - 1).

(** Reading [lastMessage.content] when the array is empty. *)
Definition TypeError_content : Error :=
  mkError "Cannot read properties of undefined (reading 'content')".

Definition isRateLimit (error : Error) : bool :=
  includes (message error) "429" || includes (message error) "quota".

(** [this.createMockLLM().invoke(messages)] *)
Definition createMockLLM_invoke (this : t) (messages : list Message) : M Reply :=
  match lastMessage messages with
  | None => throw TypeError_content
  | Some m => ret (mkReply (mockReply this (content m)))
  end.

(** The [invoke] of the Gemini wrapper built by [createLLM]. *)
Definition gemini_invoke (this : t) (generateContent : string -> outcome string)
    (messages : list Message) : M Reply :=
  try_catch
    (match lastMessage messages with
     | None => throw TypeError_content
     | Some m =>
         emit (EvGenerate (content m));;;
         text <- settle (generateContent (content m));;
         ret (mkReply text)
     end)
    (fun error =>
       if isRateLimit error then createMockLLM_invoke this messages
       else throw error).

(** [this.llm.invoke(messages)] *)
Definition llm_invoke (this : t) (messages : list Message) : M Reply :=
  match backend this with
  | Mock => createMockLLM_invoke this messages
  | Gemini generateContent => gemini_invoke this generateContent messages
  end.

Definition fallback : Reply :=
  mkReply "I encountered an error while processing your request. Please try again.".

Definition invoke (this : t) (messages : list Message) : M Reply :=
  emit (EvLLMInvoke messages);;;
  try_catch
    (llm_invoke this messages)
    (fun error =>
       if isRateLimit error then createMockLLM_invoke this messages
       else ret fallback).

(** Neither the mock nor the Gemini wrapper has a [stream] method, so
    [stream] takes its fallback for non-streaming models. *)
Definition stream (this : t) (messages : list Message) : M (list Reply) :=
  try_catch
    (response <- invoke this messages;;
     ret [response])
    (fun _ => ret [fallback]).

End LLMConfig.

(** ** [RAGAgent] (src/agents/rag-agent.js) *)

Module RAGAgent.

Record t := mk {
  weaviate : WeaviateSetup.t;
  llm : LLMConfig.t
}.

Record Result := mkResult {
  answer : string;
  fileIds : list string;
  references : list Document.t
}.

Definition indent : string := "                ".

(** The system message of the prompt with [{context}] filled in. *)
Definition systemMessage (context : string) : string :=
  "You are a helpful AI assistant. Use the following context to answer the user's question. "
  ++ nl ++ indent
  ++ "If the context doesn't contain enough information to answer the question, say so."
  ++ nl ++ indent
  ++ nl ++ indent ++ "Context:"
  ++ nl ++ indent ++ context
  ++ nl ++ indent
  ++ nl ++ indent ++ "Answer the user's question based on the context provided.".

(** [prompt.formatMessages({ context, question })] *)
Definition formatMessages (context question : string) : list Message :=
  [ mkMessage "system" (systemMessage context); mkMessage "human" question ].

Definition notFound : Result :=
  mkResult "I couldn't find any relevant information in the knowledge base for your query."
           [] [].

Definition apology : Result :=
  mkResult "I encountered an error while processing your query. Please try again."
           [] [].

Definition processQuery (this : t) (userQuery tenant : string) : M Result :=
  try_catch
    (relevantDocs <- WeaviateSetup.searchDocuments (weaviate this) userQuery tenant 5;;
     if (length relevantDocs =? 0)%nat then ret notFound
     else
       let fileIds := map Document.fileId relevantDocs in
       let context :=
         join (nl ++ nl)
           (map (fun doc => "Question: " ++ Document.question doc ++ nl
                            ++ "Answer: " ++ Document.answer doc)
                relevantDocs) in
       let formattedPrompt := formatMessages context userQuery in
       response <- LLMConfig.invoke (llm this) formattedPrompt;;
       let references :=
         map (fun doc => Document.mk (Document.fileId doc) (Document.question doc)
                                     (Document.answer doc) (Document.tenant doc))
             relevantDocs in
       ret (mkResult (LLMConfig.reply_content response) fileIds references))
    (fun _ => ret apology).

Definition fetchDocumentsByFileIds (this : t) (fileIds : list string) (tenant : string)
    : M (list Document.t) :=
  try_catch
    (documents <- WeaviateSetup.fetchObjectsByFileIds (weaviate this) fileIds tenant;;
     ret documents)
    (fun _ => ret []).

Record SimilarQuestion := mkSimilarQuestion {
  similar_fileId : string;
  similar_question : string;
  similar_answer : string
}.

Definition searchSimilarQuestions (this : t) (query tenant : string) (limit : nat)
    : M (list SimilarQuestion) :=
  try_catch
    (similarDocs <- WeaviateSetup.searchDocuments (weaviate this) query tenant limit;;
     ret (map (fun doc => mkSimilarQuestion (Document.fileId doc) (Document.question doc)
                                            (Document.answer doc))
              similarDocs))
    (fun _ => ret []).

End RAGAgent.

(** ** [DelegatingAgent] (src/agents/delegating-agent.js) *)

Module DelegatingAgent.

Record t := mk {
  llm : LLMConfig.t;
  ragAgent : RAGAgent.t;
  chartTool : ChartTool.t
}.

Record Analysis := mkAnalysis {
  useRAG : bool;
  useChart : bool;
  chartType : string;
  reasoning : string
}.

Record Response := mkResponse {
  answer : string;
  references : list Document.t;
  fileIds : list string;
  chartConfig : option ChartTool.ChartConfig;
  toolsUsed : list string
}.

(** What a promise of the task list resolves to. *)
Inductive ToolResult :=
| RAGResult (r : RAGAgent.Result)
| ChartResult (r : ChartTool.Result).

(** The four methods below are [async] but await nothing: each resolves to
    the value computed here. *)
Definition analyzeQuery (userQuery : string) : Analysis :=
  let query := toLowerCase userQuery in
  let useRAG :=
    includes query "what" || includes query "how" || includes query "why" ||
    includes query "search" || includes query "find" ||
    includes query "machine learning" || includes query "neural network" ||
    includes query "deep learning" || includes query "ai" in
  let useChart :=
    includes query "chart" || includes query "graph" || includes query "visualize" ||
    includes query "plot" || includes query "bar" || includes query "pie" ||
    includes query "line" || includes query "doughnut" in
  let chartType :=
    if includes query "pie" then "pie"
    else if includes query "line" then "line"
    else if includes query "doughnut" then "doughnut"
    else "bar" in
  {| useRAG := useRAG;
     useChart := useChart;
     chartType := chartType;
     reasoning := "Analysis based on query content: " ++ userQuery |}.

Definition determineChartType (query : string) : string :=
  let lowerQuery := toLowerCase query in
  if includes lowerQuery "bar" then "bar"
  else if includes lowerQuery "line" then "line"
  else if includes lowerQuery "pie" then "pie"
  else if includes lowerQuery "doughnut" then "doughnut"
  else "bar".

Definition prepareChartInput (userQuery chartType : string) : ChartTool.Request :=
  let sampleData := ChartTool.generateSampleData chartType in
  {| ChartTool.chartType := chartType;
     ChartTool.data := Some sampleData;
     ChartTool.title := Some ("Chart for: " ++ userQuery) |}.

Definition provideDirectAnswer (userQuery : string) : string :=
  let query := toLowerCase userQuery in
  if includes query "hello" || includes query "how are you" then
    "Hello! I am doing well, thank you for asking. How can I help you today?"
  else if includes query "weather" then
    "I cannot provide real-time weather information, but I can help you with other questions!"
  else if includes query "joke" then
    "Why did the AI go to therapy? Because it had too many neural issues! 😄"
  else
    "I understand your query. Let me provide you with a helpful response based on my knowledge.".

Definition generateCombinedResponse (userQuery : string) (response : Response) : string :=
  "I've analyzed your query: " ++ dquote ++ userQuery ++ dquote ++ " and used "
  ++ join " and " (toolsUsed response) ++ " to gather information. "
  ++ answer response.

(** Assignments to the fields of the [response] object. *)
Definition set_answer (response : Response) (a : string) : Response :=
  {| answer := a; references := references response; fileIds := fileIds response;
     chartConfig := chartConfig response; toolsUsed := toolsUsed response |}.

Definition set_fileIds (response : Response) (ids : list string) : Response :=
  {| answer := answer response; references := references response; fileIds := ids;
     chartConfig := chartConfig response; toolsUsed := toolsUsed response |}.

Definition set_references (response : Response) (refs : list Document.t) : Response :=
  {| answer := answer response; references := refs; fileIds := fileIds response;
     chartConfig := chartConfig response; toolsUsed := toolsUsed response |}.

Definition set_chartConfig (response : Response) (c : option ChartTool.ChartConfig)
    : Response :=
  {| answer := answer response; references := references response;
     fileIds := fileIds response; chartConfig := c; toolsUsed := toolsUsed response |}.

(** [response.toolsUsed.push(tool)] *)
Definition push_toolsUsed (response : Response) (tool : string) : Response :=
  {| answer := answer response; references := references response;
     fileIds := fileIds response; chartConfig := chartConfig response;
     toolsUsed := (toolsUsed response ++ [tool])%list |}.

(** The callback of [results.forEach]: it dispatches on
    [response.toolsUsed[index]], not on the shape of [result].  A result is
    pushed together with its tag, so the tag at [index] and the shape of
    the result at [index] agree (lemma [dispatch_aligned] below) and the
    branch that reads RAG fields from a chart result is never taken; a RAG
    result has no [success] property, which is falsy. *)
Definition merge (result : ToolResult) (index : nat) (response : Response) : Response :=
  match nth_error (toolsUsed response) index with
  | Some tool =>
      if String.eqb tool "RAG" then
        match result with
        | RAGResult r =>
            set_references
              (set_fileIds (set_answer response (RAGAgent.answer r)) (RAGAgent.fileIds r))
              (RAGAgent.references r)
        | ChartResult _ => response
        end
      else if String.eqb tool "Chart" then
        match result with
        | ChartResult r =>
            if ChartTool.success r then set_chartConfig response (ChartTool.chartConfig r)
            else response
        | RAGResult _ => response
        end
      else response
  | None => response
  end.

Definition map_outcome {A B} (f : A -> B) (o : outcome A) : outcome B :=
  match o with Returned a => Returned (f a) | Thrown e => Thrown e end.

Definition initialResponse : Response :=
  {| answer := ""; references := []; fileIds := []; chartConfig := None; toolsUsed := [] |}.

(** Step 2 of [processQuery]: start the selected tools, in the order RAG,
    Chart, pushing each promise together with its tag. *)
Definition dispatch (this : t) (userQuery tenant : string) (analysis : Analysis)
    : M (list (outcome ToolResult) * Response) :=
  let response := initialResponse in
  let promises := [] in
  st <- (if useRAG analysis then
           p <- promise (RAGAgent.processQuery (ragAgent this) userQuery tenant);;
           ret ((promises ++ [map_outcome RAGResult p])%list,
                push_toolsUsed response "RAG")
         else ret (promises, response));;
  let '(promises, response) := st in
  st <- (if useChart analysis then
           let chartInput := prepareChartInput userQuery (chartType analysis) in
           p <- promise (ChartTool.invoke (chartTool this) (ChartTool.InputObject chartInput));;
           ret ((promises ++ [map_outcome ChartResult p])%list,
                push_toolsUsed response "Chart")
         else ret (promises, response));;
  let '(promises, response) := st in
  if negb (useRAG analysis) && negb (useChart analysis) then
    let directAnswer := provideDirectAnswer userQuery in
    ret (promises, push_toolsUsed (set_answer response directAnswer) "Direct")
  else ret (promises, response).

(** Step 3: wait for every tool and merge the results by position. *)
Definition collect (promises : list (outcome ToolResult)) (response : Response)
    : M Response :=
  if (0 <? length promises)%nat then
    results <- Promise_all promises;;
    ret (forEach merge results response)
  else ret response.

(** Step 4: the combined answer when more than one tool was used. *)
Definition combine (userQuery : string) (response : Response) : Response :=
  if (1 <? length (toolsUsed response))%nat then
    set_answer response (generateCombinedResponse userQuery response)
  else response.

(** The body of the [try] block of [processQuery]. *)
Definition processQuery_try (this : t) (userQuery tenant : string) : M Response :=
  let analysis := analyzeQuery userQuery in
  st <- dispatch this userQuery tenant analysis;;
  let '(promises, response) := st in
  response <- collect promises response;;
  ret (combine userQuery response).

Definition errorResponse : Response :=
  {| answer := "I encountered an error while processing your request. Please try again.";
     references := [];
     fileIds := [];
     chartConfig := None;
     toolsUsed := ["Error"] |}.

Definition processQuery (this : t) (userQuery tenant : string) : M Response :=
  try_catch (processQuery_try this userQuery tenant)
            (fun _ => ret errorResponse).

End DelegatingAgent.

(** ** The HTTP routes (index.js) *)

Module Server.

(** The module-level variables of index.js, [None] until [initializeSystem]
    has assigned them, and the tool that [new ChartTool()] builds. *)
Record t := mk {
  weaviateSetup : option WeaviateSetup.t;
  delegatingAgent : option DelegatingAgent.t;
  newChartTool : ChartTool.t
}.

(** What a handler sends: [res.json(payload)] (status 200),
    [res.status(400).json({ error })], or
    [res.status(500).json({ error: 'Internal server error', message })]. *)
Inductive Reply (A : Type) :=
| Ok (payload : A)
| BadRequest (error : string)
| InternalServerError (message : string).

Arguments Ok {A} payload.
Arguments BadRequest {A} error.
Arguments InternalServerError {A} message.


(** [!x] for a string property of the body: absent or empty. *)
Definition missing (x : option string) : bool :=
  match x with
  | Some s => negb (truthy s)
  | None => true
  end.


(** Calling a method on a variable that is still [undefined]. *)
Definition TypeError_undefined (method : string) : Error :=
  mkError ("Cannot read properties of undefined (reading '" ++ method ++ "')").

(** *** POST /api/query *)




(** *** POST /api/search *)

Record SearchBody := mkSearchBody {
  search_query : option string;
  search_tenant : option string;
  search_limit : option nat
}.

Record SearchPayload := mkSearchPayload {
  search_success : bool;
  search_echo : string;
  search_results : list Document.t;
  search_count : nat
}.

Definition post_api_search (this : t) (body : SearchBody) : M (Reply SearchPayload) :=
  try_catch
    (let tenant := ChartTool.or_default (search_tenant body) "tenant1" in
     let limit := ChartTool.or_default (search_limit body) 5 in
     if missing (search_query body) then ret (BadRequest "Query is required")
     else
       let query := ChartTool.or_default (search_query body) "" in
       match weaviateSetup this with
       | None => throw (TypeError_undefined "searchDocuments")
       | Some store =>
           results <- WeaviateSetup.searchDocuments store query tenant limit;;
           ret (Ok (mkSearchPayload true query results (length results)))
       end)
    (fun error => ret (InternalServerError (message error))).

(** *** POST /api/documents *)




(** *** POST /api/chart *)




End Server.

(** ** Sample collaborators, used to run the agents on concrete queries *)

Module Sample.

(** A store whose client answers with the first [limit] of two documents. *)
Definition store : WeaviateSetup.t :=
  WeaviateSetup.mk
    (Some (fun limit => Returned (Some (firstn limit (WeaviateSetup.mockData "tenant1"))))).

(** A store whose client finds nothing. *)
Definition emptyStore : WeaviateSetup.t :=
  WeaviateSetup.mk (Some (fun _ => Returned (Some []))).

Definition mockLLM : LLMConfig.t :=
  LLMConfig.mk LLMConfig.Mock
    (fun _ => "I understand your query. Let me provide you with a direct answer based on my knowledge.").

(** A Gemini model that is out of quota. *)
Definition exhaustedLLM : LLMConfig.t :=
  LLMConfig.mk
    (LLMConfig.Gemini (fun _ => Thrown (mkError "429 Too Many Requests")))
    (fun _ => "I understand your query. Let me provide you with a direct answer based on my knowledge.").

Definition chartTool : ChartTool.t :=
  ChartTool.mkChartTool (fun _ => Thrown (mkError "Unexpected token in JSON")).

Definition agent : DelegatingAgent.t :=
  DelegatingAgent.mk mockLLM (RAGAgent.mk store mockLLM) chartTool.

Definition agentExhausted : DelegatingAgent.t :=
  DelegatingAgent.mk exhaustedLLM (RAGAgent.mk store exhaustedLLM) chartTool.

Definition agentEmptyStore : DelegatingAgent.t :=
  DelegatingAgent.mk mockLLM (RAGAgent.mk emptyStore mockLLM) chartTool.

End Sample.

(** ** Vocabulary of the properties *)

Module Spec.

(** The keywords that select the retrieval capability. *)
Definition retrievalKeywords : list string :=
  [ "what"; "how"; "why"; "search"; "find"; "machine learning";
    "neural network"; "deep learning"; "ai" ].

(** The keywords that select the visualization capability. *)
Definition visualizationKeywords : list string :=
  [ "chart"; "graph"; "visualize"; "plot"; "bar"; "pie"; "line"; "doughnut" ].

(** [text] contains none of [keywords]. *)
Definition containsNone (text : string) (keywords : list string) : bool :=
  forallb (fun k => negb (includes text k)) keywords.

(** The chart types of the tool's schema. *)
Definition chartTypes : list string := [ "bar"; "line"; "pie"; "doughnut" ].

(** The documents a search of the store yields: a function of the store
    (and of the tenant, for the mock data), not of the trace. *)
Definition found (store : WeaviateSetup.t) (tenant : string) (limit : nat)
    : list Document.t :=
  match WeaviateSetup.client store with
  | None => WeaviateSetup.mockData tenant
  | Some run =>
      match run limit with
      | Returned (Some docs) => docs
      | Returned None => []
      | Thrown _ => WeaviateSetup.mockData tenant
      end
  end.

(** The number of calls to the language model recorded in a trace. *)
Definition isLLMCall (e : Event) : bool :=
  match e with
  | EvSearch _ _ _ => false
  | EvLLMInvoke _ => true
  | EvGenerate _ => true
  end.

Definition llmCalls (tr : Trace) : nat := length (filter isLLMCall tr).

(** The tag under which the composer files a result. *)
Definition tagOf (r : DelegatingAgent.ToolResult) : string :=
  match r with
  | DelegatingAgent.RAGResult _ => "RAG"
  | DelegatingAgent.ChartResult _ => "Chart"
  end.


(** The type of the chart of a response, when it has one. *)
Definition chartTypeOf (r : DelegatingAgent.Response) : option string :=
  option_map ChartTool.type (DelegatingAgent.chartConfig r).

End Spec.

(** ** The agents as functions of their collaborators

    What each asynchronous method returns and which calls it adds to the
    trace, written as plain functions; the properties below relate the
    methods to them. *)

Module Denote.

(** The reply of [LLMConfig.invoke]. *)
Definition llmReply (cfg : LLMConfig.t) (messages : list Message) : LLMConfig.Reply :=
  match LLMConfig.lastMessage messages with
  | None => LLMConfig.fallback
  | Some m =>
      match LLMConfig.backend cfg with
      | LLMConfig.Mock => LLMConfig.mkReply (LLMConfig.mockReply cfg (content m))
      | LLMConfig.Gemini generateContent =>
          match generateContent (content m) with
          | Returned text => LLMConfig.mkReply text
          | Thrown e =>
              if LLMConfig.isRateLimit e
              then LLMConfig.mkReply (LLMConfig.mockReply cfg (content m))
              else LLMConfig.fallback
          end
      end
  end.

(** The calls of [LLMConfig.invoke]. *)
Definition llmEvents (cfg : LLMConfig.t) (messages : list Message) : Trace :=
  EvLLMInvoke messages ::
  match LLMConfig.lastMessage messages, LLMConfig.backend cfg with
  | Some m, LLMConfig.Gemini _ => [EvGenerate (content m)]
  | _, _ => []
  end.

(** The calls of [WeaviateSetup.searchDocuments]. *)
Definition searchEvents (store : WeaviateSetup.t) (query tenant : string) (limit : nat)
    : Trace :=
  match WeaviateSetup.client store with
  | Some _ => [EvSearch query tenant limit]
  | None => []
  end.

(** The documents [WeaviateSetup.fetchObjectsByFileIds] resolves to. *)
Definition fetched (store : WeaviateSetup.t) (fileIds : list string) (tenant : string)
    : list Document.t :=
  match WeaviateSetup.client store with
  | None => WeaviateSetup.mockObjects fileIds tenant
  | Some run =>
      match run (length fileIds) with
      | Returned (Some docs) => docs
      | Returned None => []
      | Thrown _ => WeaviateSetup.mockObjects fileIds tenant
      end
  end.

(** The context block the RAG agent builds from the documents. *)
Definition context (docs : list Document.t) : string :=
  join (nl ++ nl)
    (map (fun doc => "Question: " ++ Document.question doc ++ nl
                     ++ "Answer: " ++ Document.answer doc)
         docs).

(** The result of [RAGAgent.processQuery]. *)
Definition ragResult (this : RAGAgent.t) (userQuery tenant : string) : RAGAgent.Result :=
  match Spec.found (RAGAgent.weaviate this) tenant 5 with
  | [] => RAGAgent.notFound
  | docs =>
      RAGAgent.mkResult
        (LLMConfig.reply_content
           (llmReply (RAGAgent.llm this) (RAGAgent.formatMessages (context docs) userQuery)))
        (map Document.fileId docs)
        docs
  end.

(** The calls of [RAGAgent.processQuery]. *)
Definition ragEvents (this : RAGAgent.t) (userQuery tenant : string) : Trace :=
  (searchEvents (RAGAgent.weaviate this) userQuery tenant 5 ++
   match Spec.found (RAGAgent.weaviate this) tenant 5 with
   | [] => []
   | docs => llmEvents (RAGAgent.llm this) (RAGAgent.formatMessages (context docs) userQuery)
   end)%list.

(** The chart the chart tool builds for a query. *)
Definition chart (userQuery : string) : option ChartTool.ChartConfig :=
  let analysis := DelegatingAgent.analyzeQuery userQuery in
  match ChartTool.generateChartConfig
          (DelegatingAgent.chartType analysis)
          (Some (ChartTool.generateSampleData (DelegatingAgent.chartType analysis)))
          ("Chart for: " ++ userQuery) with
  | Returned cfg => Some cfg
  | Thrown _ => None
  end.

(** The response of [DelegatingAgent.processQuery]. *)
Definition response (this : DelegatingAgent.t) (userQuery tenant : string)
    : DelegatingAgent.Response :=
  let analysis := DelegatingAgent.analyzeQuery userQuery in
  let rag := ragResult (DelegatingAgent.ragAgent this) userQuery tenant in
  match DelegatingAgent.useRAG analysis, DelegatingAgent.useChart analysis with
  | true, true =>
      DelegatingAgent.mkResponse
        ("I've analyzed your query: " ++ dquote ++ userQuery ++ dquote
         ++ " and used RAG and Chart to gather information. " ++ RAGAgent.answer rag)
        (RAGAgent.references rag) (RAGAgent.fileIds rag) (chart userQuery) ["RAG"; "Chart"]
  | true, false =>
      DelegatingAgent.mkResponse (RAGAgent.answer rag) (RAGAgent.references rag)
        (RAGAgent.fileIds rag) None ["RAG"]
  | false, true =>
      DelegatingAgent.mkResponse "" [] [] (chart userQuery) ["Chart"]
  | false, false =>
      DelegatingAgent.mkResponse (DelegatingAgent.provideDirectAnswer userQuery)
        [] [] None ["Direct"]
  end.

(** The calls of [DelegatingAgent.processQuery]. *)
Definition events (this : DelegatingAgent.t) (userQuery tenant : string) : Trace :=
  if DelegatingAgent.useRAG (DelegatingAgent.analyzeQuery userQuery)
  then ragEvents (DelegatingAgent.ragAgent this) userQuery tenant
  else [].

(** Every character of [s] is an ASCII character. *)
Definition isASCII (s : string) : bool :=
  forallb (fun c => (nat_of_ascii c <? 128)%nat) (list_ascii_of_string s).

(** The character [c] does not occur in [p]. *)
Definition lacks (c : ascii) (p : string) : bool :=
  forallb (fun x => negb (Ascii.eqb x c)) (list_ascii_of_string p).

(** The value a command of the quota manager writes after the key. *)
Definition flag (b : bool) : string := if b then "true" else "false".

(** Counting the calls of each kind in a trace. *)
Definition isSearch (e : Event) : bool :=
  match e with EvSearch _ _ _ => true | _ => false end.

Definition isInvoke (e : Event) : bool :=
  match e with EvLLMInvoke _ => true | _ => false end.

Definition isGenerate (e : Event) : bool :=
  match e with EvGenerate _ => true | _ => false end.

Definition count (p : Event -> bool) (tr : Trace) : nat := length (filter p tr).

End Denote.

(** ** [APIQuotaManager] (scripts/manage-api-quota.js) *)

Module APIQuotaManager.

Definition KEY : string := "DISABLE_GOOGLE_API=".

(** The line terminators, which [.] does not match in a regular expression:
    line feed, carriage return, U+2028 and U+2029 (in UTF-8). *)
Definition LF : string := String "010"%char EmptyString.
Definition CR : string := String "013"%char EmptyString.
Definition LS : string :=
  String "226"%char (String "128"%char (String "168"%char EmptyString)).
Definition PS : string :=
  String "226"%char (String "128"%char (String "169"%char EmptyString)).

Definition lineBreakAt (s : string) : bool :=
  startsWith s LF || startsWith s CR || startsWith s LS || startsWith s PS.

(** [s.replace(/DISABLE_GOOGLE_API=.*/g, KEY + value)], scanning [s] from
    left to right; [inMatch] holds while the scan is inside the [.*] of a
    match, which runs up to the next line terminator or the end. *)
Fixpoint replaceFlag (value : string) (inMatch : bool) (s : string) : string :=
  match s with
  | EmptyString => EmptyString
  | String c s' =>
      if inMatch then
        if lineBreakAt s then String c (replaceFlag value false s')
        else replaceFlag value true s'
      else if startsWith s KEY then (KEY ++ value) ++ replaceFlag value true s'
      else String c (replaceFlag value false s')
  end.

(** The new content [disableGoogleAPI] computes from the old one. *)
Definition disabledContent (envContent : string) : string :=
  if includes envContent KEY then replaceFlag "true" false envContent
  else envContent ++ LF ++ KEY ++ "true".

(** The new content [enableGoogleAPI] computes from the old one. *)
Definition enabledContent (envContent : string) : string :=
  if includes envContent KEY then replaceFlag "false" false envContent
  else envContent.

(** The .env file, as the code sees it: [envContent] is the text that
    [readFileSync(envPath, 'utf8')] returns, that is the content of the file
    decoded as UTF-8 ([None] when the call throws), and [writable] tells
    whether [writeFileSync] succeeds on it.  [writeFileSync] stores a text in
    UTF-8, so the next read returns the text written.  The bytes of the file
    are not part of the state: a byte sequence that is not UTF-8 is read as
    the text with U+FFFD in its place, and a command that rewrites the file
    writes that text back. *)
Record EnvFile := mkEnvFile {
  envContent : option string;
  writable : bool
}.

(** Either method reads the text, computes the new text and writes it; it
    catches what [fs] throws and then leaves the file as it was. *)
Definition rewriteFile (f : string -> string) (file : EnvFile) : EnvFile :=
  match envContent file with
  | None => file
  | Some text =>
      if writable file then mkEnvFile (Some (f text)) true else file
  end.

Definition disableGoogleAPI (file : EnvFile) : EnvFile :=
  rewriteFile disabledContent file.

Definition enableGoogleAPI (file : EnvFile) : EnvFile :=
  rewriteFile enabledContent file.

End APIQuotaManager.

(** ** More sample collaborators *)

Module Fixture.

(** A store with one document of another tenant. *)
Definition otherStore : WeaviateSetup.t :=
  WeaviateSetup.mk
    (Some (fun _ =>
             Returned (Some [Document.mk "doc004" "What is deep learning?"
                               "Deep learning uses neural networks with multiple layers."
                               "tenant2"]))).

(** A store whose client fails. *)
Definition brokenStore : WeaviateSetup.t :=
  WeaviateSetup.mk (Some (fun _ => Thrown (mkError "connect ECONNREFUSED 127.0.0.1:8080"))).

(** A store whose client was never initialised. *)
Definition uninitialisedStore : WeaviateSetup.t := WeaviateSetup.mk None.

(** A Gemini model that answers with its prompt. *)
Definition echoLLM : LLMConfig.t :=
  LLMConfig.mk (LLMConfig.Gemini (fun prompt => Returned ("Gemini on: " ++ prompt)))
               (fun _ => "I understand your query.").

Definition echoAgent : DelegatingAgent.t :=
  DelegatingAgent.mk echoLLM (RAGAgent.mk Sample.store echoLLM) Sample.chartTool.

Definition server : Server.t :=
  Server.mk (Some Sample.store) (Some Sample.agent) Sample.chartTool.

(** The server before [initializeSystem] has run. *)
Definition coldServer : Server.t := Server.mk None None Sample.chartTool.

End Fixture.

(** * Properties *)

Unset Implicit Arguments.

(** ** Strings: [includes] is the substring relation *)

Lemma startsWith_spec (s p : string) :
  startsWith s p = true <-> exists post, s = p ++ post.
Proof.
  revert s; induction p as [|c p IH]; intros s; simpl.
  - split; [intros _; now exists s | intros _; now destruct s].
  - destruct s as [|d s]; simpl.
    + split; [discriminate | intros [post H]; discriminate].
    + rewrite andb_true_iff, Ascii.eqb_eq, IH. split.
      * intros [-> [post ->]]. now exists post.
      * intros [post H]. injection H as -> ->. split; [reflexivity | now exists post].
Qed.

Lemma includes_nil (sub : string) : includes "" sub = startsWith "" sub.
Proof. simpl. apply orb_false_r. Qed.

Lemma includes_cons (a : ascii) (s sub : string) :
  includes (String a s) sub = startsWith (String a s) sub || includes s sub.
Proof. reflexivity. Qed.

Lemma includes_spec (s sub : string) :
  includes s sub = true <-> exists pre post, s = pre ++ sub ++ post.
Proof.
  induction s as [|a s IH].
  - rewrite includes_nil, startsWith_spec. split.
    + intros [post H]. exists "", post. exact H.
    + intros [pre [post H]].
      destruct pre; [now exists post | discriminate].
  - rewrite includes_cons, orb_true_iff, startsWith_spec, IH. split.
    + intros [[post H] | [pre [post H]]].
      * exists "", post. exact H.
      * exists (String a pre), post. simpl. now rewrite H.
    + intros [pre [post H]]. destruct pre as [|c pre]; simpl in H.
      * left. now exists post.
      * right. injection H as _ H. now exists pre, post.
Qed.

Lemma includes_app (pre sub post : string) : includes (pre ++ sub ++ post) sub = true.
Proof. apply includes_spec. now exists pre, post. Qed.

Example toLowerCase_greeting :
  toLowerCase "Hello, How ARE you?" = "hello, how are you?".
Proof. reflexivity. Qed.

Example includes_examples :
  includes "create a bar chart of sales data" "bar" = true /\
  includes "create a bar chart of sales data" "ai" = false /\
  includes "" "" = true /\
  includes "" "ai" = false.
Proof. repeat split. Qed.

(** ** The monad *)


Ltac run_monad :=
  unfold bind, ret, throw, try_catch, emit, settle, promise, Promise_all in *.

(** ** The language-model client never throws *)

Lemma isRateLimit_TypeError_content :
  LLMConfig.isRateLimit LLMConfig.TypeError_content = false.
Proof. reflexivity. Qed.

Lemma createMockLLM_invoke_returns (this : LLMConfig.t) (messages : list Message)
    (m : Message) (tr : Trace) :
  LLMConfig.lastMessage messages = Some m ->
  LLMConfig.createMockLLM_invoke this messages tr
  = (Returned (LLMConfig.mkReply (LLMConfig.mockReply this (content m))), tr).
Proof.
  intros H. unfold LLMConfig.createMockLLM_invoke. now rewrite H.
Qed.

Lemma LLMConfig_invoke_returns (this : LLMConfig.t) (messages : list Message) (tr : Trace) :
  exists reply tr', LLMConfig.invoke this messages tr = (Returned reply, tr').
Proof.
  unfold LLMConfig.invoke, LLMConfig.llm_invoke.
  destruct (LLMConfig.lastMessage messages) as [m|] eqn:Hlast.
  - destruct (LLMConfig.backend this) as [|generateContent].
    + run_monad. rewrite (createMockLLM_invoke_returns this _ _ _ Hlast). eauto.
    + unfold LLMConfig.gemini_invoke. run_monad. rewrite Hlast.
      destruct (generateContent (content m)) as [text|e]; [eauto|].
      destruct (LLMConfig.isRateLimit e) eqn:Hrate.
      * rewrite (createMockLLM_invoke_returns this _ _ _ Hlast). eauto.
      * rewrite Hrate. eauto.
  - destruct (LLMConfig.backend this) as [|generateContent].
    + unfold LLMConfig.createMockLLM_invoke. run_monad. rewrite Hlast.
      rewrite isRateLimit_TypeError_content. eauto.
    + unfold LLMConfig.gemini_invoke, LLMConfig.createMockLLM_invoke.
      run_monad. rewrite Hlast.
      rewrite isRateLimit_TypeError_content. rewrite isRateLimit_TypeError_content. eauto.
Qed.

(** ** The store never throws, and what it finds does not depend on the trace *)

Lemma searchDocuments_found (store : WeaviateSetup.t) (query tenant : string)
    (limit : nat) (tr : Trace) :
  exists tr',
    WeaviateSetup.searchDocuments store query tenant limit tr
    = (Returned (Spec.found store tenant limit), tr') /\
    (tr' = tr \/ tr' = (tr ++ [EvSearch query tenant limit])%list).
Proof.
  unfold WeaviateSetup.searchDocuments, Spec.found. run_monad.
  destruct (WeaviateSetup.client store) as [run|]; [|eauto].
  destruct (run limit) as [[docs|]|e]; eauto.
Qed.

(** A search that finds nothing went to the client, once. *)
Lemma searchDocuments_nothing (store : WeaviateSetup.t) (query tenant : string)
    (limit : nat) (tr tr' : Trace) :
  WeaviateSetup.searchDocuments store query tenant limit tr = (Returned [], tr') ->
  tr' = (tr ++ [EvSearch query tenant limit])%list.
Proof.
  unfold WeaviateSetup.searchDocuments. run_monad.
  destruct (WeaviateSetup.client store) as [run|]; [|discriminate].
  destruct (run limit) as [[docs|]|e]; intros H; inversion H; reflexivity.
Qed.

(** ** The RAG agent never throws *)

Lemma RAGAgent_processQuery_returns (this : RAGAgent.t) (userQuery tenant : string)
    (tr : Trace) :
  exists r tr',
    RAGAgent.processQuery this userQuery tenant tr = (Returned r, tr') /\
    RAGAgent.fileIds r
    = map Document.fileId (Spec.found (RAGAgent.weaviate this) tenant 5).
Proof.
  unfold RAGAgent.processQuery.
  destruct (searchDocuments_found (RAGAgent.weaviate this) userQuery tenant 5 tr)
    as (tr1 & Hsearch & _).
  run_monad. rewrite Hsearch.
  destruct (Spec.found (RAGAgent.weaviate this) tenant 5) as [|doc docs] eqn:Hdocs.
  - simpl. eauto.
  - cbn [length Nat.eqb].
    match goal with
    | |- context [LLMConfig.invoke ?l ?ms ?t] =>
        destruct (LLMConfig_invoke_returns l ms t) as (reply & tr2 & Hllm);
        rewrite Hllm
    end.
    eexists _, _. split; [reflexivity|]. reflexivity.
Qed.

(** ** Property lookup *)

Lemma own_not_in {A} (props : list (string * A)) (key : string) :
  ~ In key (map fst props) -> JSObject.own props key = None.
Proof.
  induction props as [|[k a] rest IH]; simpl; intros H; [reflexivity|].
  destruct (String.eqb_spec k key) as [->|Hne].
  - exfalso. apply H. now left.
  - apply IH. intros Hin. apply H. now right.
Qed.

Lemma existsb_eqb_not_in (key : string) (l : list string) :
  ~ In key l -> existsb (String.eqb key) l = false.
Proof.
  induction l as [|k rest IH]; simpl; intros H; [reflexivity|].
  destruct (String.eqb_spec key k) as [->|Hne].
  - exfalso. apply H. now left.
  - apply IH. intros Hin. apply H. now right.
Qed.

Lemma get_undefined {A} (props : list (string * A)) (key : string) :
  ~ In key (map fst props) -> ~ In key JSObject.inherited ->
  JSObject.get props key = None.
Proof.
  intros Hown Hproto. unfold JSObject.get.
  now rewrite (own_not_in props key Hown), (existsb_eqb_not_in key _ Hproto).
Qed.

(** ** The chart tool *)

Lemma generateChartConfig_type (chartType : string) (d : ChartTool.DataValue)
    (title : string) :
  exists cfg,
    ChartTool.generateChartConfig chartType (Some d) title = Returned cfg /\
    ChartTool.type cfg = chartType /\
    map ChartTool.backgroundColor (ChartTool.datasets (ChartTool.config_data cfg))
    = [ChartTool.getColors chartType].
Proof.
  unfold ChartTool.generateChartConfig. eexists. split; [reflexivity|].
  split; reflexivity.
Qed.

Lemma ChartTool_invoke_object (this : ChartTool.t) (o : ChartTool.Request)
    (d : ChartTool.DataValue) (tr : Trace) :
  ChartTool.data o = Some d ->
  exists cfg,
    ChartTool.invoke this (ChartTool.InputObject o) tr
    = (Returned (ChartTool.Success cfg
         ("Generated " ++ ChartTool.chartType o ++ " chart configuration successfully")), tr) /\
    ChartTool.type cfg = ChartTool.chartType o /\
    map ChartTool.backgroundColor (ChartTool.datasets (ChartTool.config_data cfg))
    = [ChartTool.getColors (ChartTool.chartType o)].
Proof.
  intros Hdata.
  destruct (generateChartConfig_type (ChartTool.chartType o) d
              (ChartTool.or_default (ChartTool.title o) "Chart"))
    as (cfg & Hcfg & Htype & Hcolors).
  exists cfg. split; [|now split].
  unfold ChartTool.invoke, ChartTool._call, ChartTool.readInput. run_monad.
  rewrite Hdata, Hcfg. reflexivity.
Qed.

(** ** The composer, case by case

    The four lemmas below run the [try] block of [processQuery] for the four
    routing decisions. *)

Section Composer.

Import DelegatingAgent.

Variable this : DelegatingAgent.t.
Variables userQuery tenant : string.
Variable tr : Trace.

Let analysis := analyzeQuery userQuery.

Lemma run_direct :
  useRAG analysis = false -> useChart analysis = false ->
  processQuery_try this userQuery tenant tr
  = (Returned {| answer := provideDirectAnswer userQuery;
                 references := [];
                 fileIds := [];
                 chartConfig := None;
                 toolsUsed := ["Direct"] |}, tr).
Proof.
  intros Hrag Hchart. unfold processQuery_try, dispatch.
  fold analysis. rewrite Hrag, Hchart. reflexivity.
Qed.

Lemma run_rag_only :
  useRAG analysis = true -> useChart analysis = false ->
  exists rag tr1,
    RAGAgent.processQuery (ragAgent this) userQuery tenant tr = (Returned rag, tr1) /\
    RAGAgent.fileIds rag
    = map Document.fileId (Spec.found (RAGAgent.weaviate (ragAgent this)) tenant 5) /\
    processQuery_try this userQuery tenant tr
    = (Returned {| answer := RAGAgent.answer rag;
                   references := RAGAgent.references rag;
                   fileIds := RAGAgent.fileIds rag;
                   chartConfig := None;
                   toolsUsed := ["RAG"] |}, tr1).
Proof.
  intros Hrag Hchart.
  destruct (RAGAgent_processQuery_returns (ragAgent this) userQuery tenant tr)
    as (rag & tr1 & Hrun & Hids).
  exists rag, tr1. split; [exact Hrun|]. split; [exact Hids|].
  unfold processQuery_try, dispatch. fold analysis. rewrite Hrag, Hchart.
  run_monad. rewrite Hrun. reflexivity.
Qed.

Lemma run_chart_only :
  useRAG analysis = false -> useChart analysis = true ->
  exists cfg,
    ChartTool.type cfg = chartType analysis /\
    map ChartTool.backgroundColor (ChartTool.datasets (ChartTool.config_data cfg))
    = [ChartTool.getColors (chartType analysis)] /\
    processQuery_try this userQuery tenant tr
    = (Returned {| answer := "";
                   references := [];
                   fileIds := [];
                   chartConfig := Some cfg;
                   toolsUsed := ["Chart"] |}, tr).
Proof.
  intros Hrag Hchart.
  destruct (ChartTool_invoke_object (chartTool this)
              (prepareChartInput userQuery (chartType analysis)) _ tr eq_refl)
    as (cfg & Hrun & Htype & Hcolors).
  exists cfg. split; [exact Htype|]. split; [exact Hcolors|].
  unfold processQuery_try, dispatch. fold analysis. rewrite Hrag, Hchart.
  run_monad. rewrite Hrun. reflexivity.
Qed.

Lemma run_rag_and_chart :
  useRAG analysis = true -> useChart analysis = true ->
  exists rag tr1 cfg,
    RAGAgent.processQuery (ragAgent this) userQuery tenant tr = (Returned rag, tr1) /\
    RAGAgent.fileIds rag
    = map Document.fileId (Spec.found (RAGAgent.weaviate (ragAgent this)) tenant 5) /\
    ChartTool.type cfg = chartType analysis /\
    processQuery_try this userQuery tenant tr
    = (Returned {| answer :=
                     "I've analyzed your query: " ++ dquote ++ userQuery ++ dquote
                     ++ " and used RAG and Chart to gather information. "
                     ++ RAGAgent.answer rag;
                   references := RAGAgent.references rag;
                   fileIds := RAGAgent.fileIds rag;
                   chartConfig := Some cfg;
                   toolsUsed := ["RAG"; "Chart"] |}, tr1).
Proof.
  intros Hrag Hchart.
  destruct (RAGAgent_processQuery_returns (ragAgent this) userQuery tenant tr)
    as (rag & tr1 & Hrun & Hids).
  destruct (ChartTool_invoke_object (chartTool this)
              (prepareChartInput userQuery (chartType analysis)) _ tr1 eq_refl)
    as (cfg & Hrun' & Htype & _).
  exists rag, tr1, cfg. split; [exact Hrun|]. split; [exact Hids|].
  split; [exact Htype|].
  unfold processQuery_try, dispatch. fold analysis. rewrite Hrag, Hchart.
  run_monad. rewrite Hrun. cbv zeta. rewrite Hrun'. reflexivity.
Qed.

End Composer.

(** The [catch] of [processQuery] turns every outcome of the [try] block into
    a returned response. *)
Lemma processQuery_catch (this : DelegatingAgent.t) (userQuery tenant : string)
    (tr : Trace) :
  DelegatingAgent.processQuery this userQuery tenant tr
  = match DelegatingAgent.processQuery_try this userQuery tenant tr with
    | (Returned r, tr') => (Returned r, tr')
    | (Thrown _, tr') => (Returned DelegatingAgent.errorResponse, tr')
    end.
Proof.
  unfold DelegatingAgent.processQuery, try_catch, ret.
  now destruct (DelegatingAgent.processQuery_try this userQuery tenant tr) as [[r|e] tr'].
Qed.

(** No collaborator can make the [try] block throw: the RAG agent and the
    chart tool catch their own faults. *)
Lemma processQuery_try_returns (this : DelegatingAgent.t) (userQuery tenant : string)
    (tr : Trace) :
  exists r tr',
    DelegatingAgent.processQuery_try this userQuery tenant tr = (Returned r, tr').
Proof.
  destruct (DelegatingAgent.useRAG (DelegatingAgent.analyzeQuery userQuery)) eqn:Hrag;
    destruct (DelegatingAgent.useChart (DelegatingAgent.analyzeQuery userQuery)) eqn:Hchart.
  - destruct (run_rag_and_chart this userQuery tenant tr Hrag Hchart)
      as (rag & tr' & cfg & _ & _ & _ & Htry). eauto.
  - destruct (run_rag_only this userQuery tenant tr Hrag Hchart)
      as (rag & tr' & _ & _ & Htry). eauto.
  - destruct (run_chart_only this userQuery tenant tr Hrag Hchart)
      as (cfg & _ & _ & Htry). eauto.
  - rewrite (run_direct this userQuery tenant tr Hrag Hchart). eauto.
Qed.

(** The retrieval scenario of the usage examples, on the sample store. *)
Example what_is_machine_learning :
  exists r tr',
    DelegatingAgent.processQuery Sample.agent "What is machine learning?" "tenant1" []
    = (Returned r, tr') /\
    DelegatingAgent.toolsUsed r = ["RAG"] /\
    DelegatingAgent.fileIds r = ["doc001"; "doc002"] /\
    DelegatingAgent.chartConfig r = None.
Proof.
  eexists _, _. split; [vm_compute; reflexivity|]. repeat split.
Qed.

(** ** The router *)

(** C7. A query whose lower-cased text contains both "pie" and "graph" is
    routed to the chart tool with chart type "pie", whatever else it
    contains; in general the chart type is "pie" if the text contains "pie",
    else "line" if it contains "line", else "doughnut" if it contains
    "doughnut", else "bar". *)
Theorem router_pie_priority (userQuery : string) :
  let query := toLowerCase userQuery in
  let analysis := DelegatingAgent.analyzeQuery userQuery in
  (includes query "pie" = true -> includes query "graph" = true ->
   DelegatingAgent.useChart analysis = true /\
   DelegatingAgent.chartType analysis = "pie") /\
  DelegatingAgent.chartType analysis
  = (if includes query "pie" then "pie"
     else if includes query "line" then "line"
     else if includes query "doughnut" then "doughnut"
     else "bar").
Proof.
  cbv zeta. split; [|reflexivity].
  intros Hpie Hgraph. unfold DelegatingAgent.analyzeQuery; cbn [DelegatingAgent.useChart DelegatingAgent.chartType].
  rewrite Hpie, Hgraph. split; [|reflexivity].
  now rewrite orb_true_r.
Qed.

(** A query with "pie", "graph", "line" and a retrieval keyword. *)
Lemma router_pie_priority_witness :
  DelegatingAgent.useChart
    (DelegatingAgent.analyzeQuery "What does the LINE graph say about apple pie?") = true /\
  DelegatingAgent.chartType
    (DelegatingAgent.analyzeQuery "What does the LINE graph say about apple pie?") = "pie".
Proof.
  apply (proj1 (router_pie_priority "What does the LINE graph say about apple pie?"));
    reflexivity.
Defined.

(** C8. The router is a function of the query text alone, defined on every
    string; a query whose lower-cased text contains none of the retrieval
    keywords and none of the visualization keywords (the empty query is one)
    selects neither capability, and the orchestrator answers it directly. *)
Theorem router_no_keyword (userQuery : string) :
  Spec.containsNone (toLowerCase userQuery)
    (Spec.retrievalKeywords ++ Spec.visualizationKeywords) = true ->
  DelegatingAgent.useRAG (DelegatingAgent.analyzeQuery userQuery) = false /\
  DelegatingAgent.useChart (DelegatingAgent.analyzeQuery userQuery) = false /\
  forall this tenant tr,
    DelegatingAgent.processQuery this userQuery tenant tr
    = (Returned {| DelegatingAgent.answer := DelegatingAgent.provideDirectAnswer userQuery;
                   DelegatingAgent.references := [];
                   DelegatingAgent.fileIds := [];
                   DelegatingAgent.chartConfig := None;
                   DelegatingAgent.toolsUsed := ["Direct"] |}, tr).
Proof.
  intros H. unfold Spec.containsNone in H.
  cbn [Spec.retrievalKeywords Spec.visualizationKeywords app forallb] in H.
  repeat (apply andb_true_iff in H; destruct H as [?H H]).
  repeat match goal with
         | Hk : negb _ = true |- _ => apply negb_true_iff in Hk
         end.
  assert (Hrag : DelegatingAgent.useRAG (DelegatingAgent.analyzeQuery userQuery) = false).
  { unfold DelegatingAgent.analyzeQuery; cbn [DelegatingAgent.useRAG].
    repeat match goal with Hk : includes _ _ = false |- _ => rewrite Hk; clear Hk end.
    reflexivity. }
  assert (Hchart : DelegatingAgent.useChart (DelegatingAgent.analyzeQuery userQuery) = false).
  { unfold DelegatingAgent.analyzeQuery; cbn [DelegatingAgent.useChart].
    repeat match goal with Hk : includes _ _ = false |- _ => rewrite Hk; clear Hk end.
    reflexivity. }
  split; [exact Hrag|]. split; [exact Hchart|].
  intros this tenant tr. rewrite processQuery_catch.
  now rewrite (run_direct this userQuery tenant tr Hrag Hchart).
Qed.

(** The empty query. *)
Lemma router_no_keyword_witness :
  DelegatingAgent.useRAG (DelegatingAgent.analyzeQuery "") = false /\
  DelegatingAgent.useChart (DelegatingAgent.analyzeQuery "") = false /\
  forall this tenant tr,
    DelegatingAgent.processQuery this "" tenant tr
    = (Returned {| DelegatingAgent.answer := DelegatingAgent.provideDirectAnswer "";
                   DelegatingAgent.references := [];
                   DelegatingAgent.fileIds := [];
                   DelegatingAgent.chartConfig := None;
                   DelegatingAgent.toolsUsed := ["Direct"] |}, tr).
Proof.
  apply (router_no_keyword ""). reflexivity.
Defined.

(** ** Invariants of the merge *)

Section Merge.

Import DelegatingAgent.








(** The results, once settled, are in the order of the tags: the result at an
    index has the shape its tag announces. *)
Lemma dispatch_aligned (this : t) (userQuery tenant : string) (analysis : Analysis)
    (tr tr' : Trace) (promises : list (outcome ToolResult)) (response : Response)
    (results : list ToolResult) :
  dispatch this userQuery tenant analysis tr = (Returned (promises, response), tr') ->
  all_outcomes promises = Returned results ->
  results <> [] ->
  map Spec.tagOf results = toolsUsed response.
Proof.
  unfold dispatch. run_monad.
  destruct (useRAG analysis), (useChart analysis); cbn [negb andb];
    repeat match goal with
           | |- context [RAGAgent.processQuery ?a ?q ?t ?x] =>
               destruct (RAGAgent.processQuery a q t x) as [[?|?] ?]
           | |- context [ChartTool.invoke ?a ?i ?x] =>
               destruct (ChartTool.invoke a i x) as [[?|?] ?]
           end;
    intros Hd Hall Hne; inversion Hd; subst; clear Hd;
    simpl in Hall; try discriminate; inversion Hall; subst;
    try reflexivity; now contradiction Hne.
Qed.

End Merge.

(** ** The orchestrator *)

(** C1. [processQuery] returns a response for every query, tenant and state
    of the collaborators: the response the [try] block produced when it
    returned, and the terminal error response (fixed apology, no file, no
    reference, no chart, tools ["Error"]) when it threw. *)
Theorem processQuery_never_raises (this : DelegatingAgent.t)
    (userQuery tenant : string) (tr : Trace) :
  exists response tr',
    DelegatingAgent.processQuery this userQuery tenant tr = (Returned response, tr') /\
    match DelegatingAgent.processQuery_try this userQuery tenant tr with
    | (Returned r, tr1) => response = r /\ tr' = tr1
    | (Thrown _, tr1) =>
        tr' = tr1 /\
        response
        = {| DelegatingAgent.answer :=
               "I encountered an error while processing your request. Please try again.";
             DelegatingAgent.references := [];
             DelegatingAgent.fileIds := [];
             DelegatingAgent.chartConfig := None;
             DelegatingAgent.toolsUsed := ["Error"] |}
    end.
Proof.
  rewrite processQuery_catch.
  destruct (DelegatingAgent.processQuery_try this userQuery tenant tr) as [[r|e] tr1].
  - exists r, tr1. repeat split.
  - exists DelegatingAgent.errorResponse, tr1. repeat split.
Qed.


Lemma append_assoc (s1 s2 s3 : string) : (s1 ++ s2) ++ s3 = s1 ++ s2 ++ s3.
Proof.
  induction s1 as [|c s1 IH]; simpl; [reflexivity | now rewrite IH].
Qed.

(** C3. When the router selects both retrieval and visualization, the
    response lists the tools as ["RAG"; "Chart"], in that order, carries a
    chart, and its answer is the narration template: the query text between
    quotes, the tool names joined by "and", then the answer of the RAG
    agent. *)
Theorem combined_response (this : DelegatingAgent.t) (userQuery tenant : string)
    (tr : Trace) :
  DelegatingAgent.useRAG (DelegatingAgent.analyzeQuery userQuery) = true ->
  DelegatingAgent.useChart (DelegatingAgent.analyzeQuery userQuery) = true ->
  exists rag cfg r tr',
    RAGAgent.processQuery (DelegatingAgent.ragAgent this) userQuery tenant tr
    = (Returned rag, tr') /\
    DelegatingAgent.processQuery this userQuery tenant tr = (Returned r, tr') /\
    DelegatingAgent.toolsUsed r = ["RAG"; "Chart"] /\
    DelegatingAgent.chartConfig r = Some cfg /\
    DelegatingAgent.answer r
    = "I've analyzed your query: " ++ dquote ++ userQuery ++ dquote ++ " and used "
      ++ join " and " (DelegatingAgent.toolsUsed r) ++ " to gather information. "
      ++ RAGAgent.answer rag /\
    includes (DelegatingAgent.answer r) userQuery = true /\
    includes (DelegatingAgent.answer r) "RAG and Chart" = true.
Proof.
  intros Hrag Hchart.
  destruct (run_rag_and_chart this userQuery tenant tr Hrag Hchart)
    as (rag & tr' & cfg & Hrun & _ & _ & Htry).
  rewrite processQuery_catch, Htry.
  eexists rag, cfg, _, tr'. split; [exact Hrun|]. split; [reflexivity|].
  cbn [DelegatingAgent.toolsUsed DelegatingAgent.chartConfig DelegatingAgent.answer].
  split; [reflexivity|]. split; [reflexivity|]. split; [reflexivity|]. split.
  - apply includes_spec.
    exists ("I've analyzed your query: " ++ dquote),
           (dquote ++ " and used RAG and Chart to gather information. "
            ++ RAGAgent.answer rag).
    reflexivity.
  - apply includes_spec.
    exists ("I've analyzed your query: " ++ dquote ++ userQuery ++ dquote ++ " and used "),
           (" to gather information. " ++ RAGAgent.answer rag).
    rewrite !append_assoc. reflexivity.
Qed.

(** The combined query of the usage examples, on the sample store. *)
Lemma combined_response_witness :
  exists rag cfg r tr',
    RAGAgent.processQuery (DelegatingAgent.ragAgent Sample.agent)
      "What is AI and show me a pie chart of AI applications" "tenant1" []
    = (Returned rag, tr') /\
    DelegatingAgent.processQuery Sample.agent
      "What is AI and show me a pie chart of AI applications" "tenant1" []
    = (Returned r, tr') /\
    DelegatingAgent.toolsUsed r = ["RAG"; "Chart"] /\
    DelegatingAgent.chartConfig r = Some cfg /\
    DelegatingAgent.answer r
    = "I've analyzed your query: " ++ dquote
      ++ "What is AI and show me a pie chart of AI applications" ++ dquote ++ " and used "
      ++ join " and " (DelegatingAgent.toolsUsed r) ++ " to gather information. "
      ++ RAGAgent.answer rag /\
    includes (DelegatingAgent.answer r)
      "What is AI and show me a pie chart of AI applications" = true /\
    includes (DelegatingAgent.answer r) "RAG and Chart" = true.
Proof.
  apply (combined_response Sample.agent
           "What is AI and show me a pie chart of AI applications" "tenant1" []);
    reflexivity.
Defined.

(** C4. The code on the query "Hello, how are you?": its lower-cased text
    contains "how", so the router selects retrieval; the response lists
    ["RAG"] and carries the answer of the RAG agent, although the direct
    adapter has the greeting reply for this very query. *)
Theorem hello_how_are_you_uses_RAG (this : DelegatingAgent.t) (tr : Trace) :
  DelegatingAgent.useRAG (DelegatingAgent.analyzeQuery "Hello, how are you?") = true /\
  DelegatingAgent.provideDirectAnswer "Hello, how are you?"
  = "Hello! I am doing well, thank you for asking. How can I help you today?" /\
  exists rag tr',
    RAGAgent.processQuery (DelegatingAgent.ragAgent this) "Hello, how are you?" "tenant1" tr
    = (Returned rag, tr') /\
    DelegatingAgent.processQuery this "Hello, how are you?" "tenant1" tr
    = (Returned {| DelegatingAgent.answer := RAGAgent.answer rag;
                   DelegatingAgent.references := RAGAgent.references rag;
                   DelegatingAgent.fileIds := RAGAgent.fileIds rag;
                   DelegatingAgent.chartConfig := None;
                   DelegatingAgent.toolsUsed := ["RAG"] |}, tr').
Proof.
  split; [reflexivity|]. split; [reflexivity|].
  destruct (run_rag_only this "Hello, how are you?" "tenant1" tr eq_refl eq_refl)
    as (rag & tr' & Hrun & _ & Htry).
  exists rag, tr'. split; [exact Hrun|].
  now rewrite processQuery_catch, Htry.
Qed.

(** C5, as the specification states it, fails on the sample agent: the
    response to "Create a bar chart of sales data" has an empty answer. *)
Lemma chart_only_answer_counterexample :
  ~ (exists r tr',
       DelegatingAgent.processQuery Sample.agent
         "Create a bar chart of sales data" "tenant1" [] = (Returned r, tr') /\
       DelegatingAgent.toolsUsed r = ["Chart"] /\
       Spec.chartTypeOf r = Some "bar" /\
       DelegatingAgent.answer r <> "").
Proof.
  intros (r & tr' & Hrun & _ & _ & Hanswer).
  vm_compute in Hrun. inversion Hrun; subst. now apply Hanswer.
Qed.

(** C5, amended. The query "Create a bar chart of sales data" for tenant
    "tenant1" yields a response whose tools are ["Chart"], whose chart has
    type "bar" and whose answer is the empty string: no step of the composer
    writes an answer when the chart tool is the only tool. *)
Theorem chart_only_response (this : DelegatingAgent.t) (tr : Trace) :
  exists cfg,
    DelegatingAgent.processQuery this "Create a bar chart of sales data" "tenant1" tr
    = (Returned {| DelegatingAgent.answer := "";
                   DelegatingAgent.references := [];
                   DelegatingAgent.fileIds := [];
                   DelegatingAgent.chartConfig := Some cfg;
                   DelegatingAgent.toolsUsed := ["Chart"] |}, tr) /\
    ChartTool.type cfg = "bar".
Proof.
  destruct (run_chart_only this "Create a bar chart of sales data" "tenant1" tr
              eq_refl eq_refl)
    as (cfg & Htype & _ & Htry).
  exists cfg. split; [|exact Htype].
  now rewrite processQuery_catch, Htry.
Qed.

(** ** Retrieval that finds nothing *)

Lemma llmCalls_search (tr : Trace) (query tenant : string) (limit : nat) :
  Spec.llmCalls (tr ++ [EvSearch query tenant limit])%list = Spec.llmCalls tr.
Proof.
  unfold Spec.llmCalls. rewrite filter_app. simpl. now rewrite app_nil_r.
Qed.

Lemma RAGAgent_no_documents (this : RAGAgent.t) (userQuery tenant : string)
    (tr tr1 : Trace) :
  WeaviateSetup.searchDocuments (RAGAgent.weaviate this) userQuery tenant 5 tr
  = (Returned [], tr1) ->
  RAGAgent.processQuery this userQuery tenant tr = (Returned RAGAgent.notFound, tr1).
Proof.
  intros Hsearch. unfold RAGAgent.processQuery. run_monad. now rewrite Hsearch.
Qed.

(** C6. When the search of the store returns no document, the RAG agent
    returns the fixed "no information found" answer with no file and no
    reference, and the only call it made is the search: the language model
    was not invoked.  When the router selected retrieval for the query, the
    response of the orchestrator lists "RAG" among its tools, and not
    "Error". *)
Theorem no_documents_short_circuit (this : DelegatingAgent.t)
    (userQuery tenant : string) (tr tr1 : Trace) :
  WeaviateSetup.searchDocuments
    (RAGAgent.weaviate (DelegatingAgent.ragAgent this)) userQuery tenant 5 tr
  = (Returned [], tr1) ->
  RAGAgent.processQuery (DelegatingAgent.ragAgent this) userQuery tenant tr
  = (Returned
       {| RAGAgent.answer :=
            "I couldn't find any relevant information in the knowledge base for your query.";
          RAGAgent.fileIds := [];
          RAGAgent.references := [] |}, tr1) /\
  tr1 = (tr ++ [EvSearch userQuery tenant 5])%list /\
  Spec.llmCalls tr1 = Spec.llmCalls tr /\
  (DelegatingAgent.useRAG (DelegatingAgent.analyzeQuery userQuery) = true ->
   exists r,
     DelegatingAgent.processQuery this userQuery tenant tr = (Returned r, tr1) /\
     In "RAG" (DelegatingAgent.toolsUsed r) /\
     ~ In "Error" (DelegatingAgent.toolsUsed r) /\
     DelegatingAgent.fileIds r = [] /\
     DelegatingAgent.references r = []).
Proof.
  intros Hsearch.
  pose proof (RAGAgent_no_documents _ _ _ _ _ Hsearch) as Hrag.
  pose proof (searchDocuments_nothing _ _ _ _ _ _ Hsearch) as Htrace.
  split; [exact Hrag|]. split; [exact Htrace|].
  split; [rewrite Htrace; apply llmCalls_search|].
  intros Hsel. rewrite processQuery_catch.
  destruct (DelegatingAgent.useChart (DelegatingAgent.analyzeQuery userQuery)) eqn:Hchart.
  - destruct (run_rag_and_chart this userQuery tenant tr Hsel Hchart)
      as (rag & tr' & cfg & Hrun & _ & _ & Htry).
    rewrite Hrag in Hrun. inversion Hrun; subst rag tr'. rewrite Htry.
    eexists. split; [reflexivity|]. simpl.
    split; [now left|]. split; [|now split].
    intros [H|[H|[]]]; discriminate.
  - destruct (run_rag_only this userQuery tenant tr Hsel Hchart)
      as (rag & tr' & Hrun & _ & Htry).
    rewrite Hrag in Hrun. inversion Hrun; subst rag tr'. rewrite Htry.
    eexists. split; [reflexivity|]. simpl.
    split; [now left|]. split; [|now split].
    intros [H|[]]; discriminate.
Qed.

(** A retrieval query on a store that finds nothing. *)
Lemma no_documents_short_circuit_witness :
  RAGAgent.processQuery (DelegatingAgent.ragAgent Sample.agentEmptyStore)
    "What is machine learning?" "tenant1" []
  = (Returned
       {| RAGAgent.answer :=
            "I couldn't find any relevant information in the knowledge base for your query.";
          RAGAgent.fileIds := [];
          RAGAgent.references := [] |},
     [EvSearch "What is machine learning?" "tenant1" 5]) /\
  exists r,
    DelegatingAgent.processQuery Sample.agentEmptyStore
      "What is machine learning?" "tenant1" []
    = (Returned r, [EvSearch "What is machine learning?" "tenant1" 5]) /\
    In "RAG" (DelegatingAgent.toolsUsed r) /\
    ~ In "Error" (DelegatingAgent.toolsUsed r) /\
    DelegatingAgent.fileIds r = [] /\
    DelegatingAgent.references r = [].
Proof.
  destruct (no_documents_short_circuit Sample.agentEmptyStore
              "What is machine learning?" "tenant1" []
              [EvSearch "What is machine learning?" "tenant1" 5] eq_refl)
    as (Hrag & _ & _ & Hresponse).
  split; [exact Hrag | apply Hresponse; reflexivity].
Defined.

(** ** Stability of the selection *)

(** The file identifiers and the chart type of a response are functions of
    the query, the tenant and the store. *)
Lemma processQuery_selection (this : DelegatingAgent.t) (userQuery tenant : string)
    (tr : Trace) :
  exists r tr',
    DelegatingAgent.processQuery this userQuery tenant tr = (Returned r, tr') /\
    DelegatingAgent.fileIds r
    = (if DelegatingAgent.useRAG (DelegatingAgent.analyzeQuery userQuery)
       then map Document.fileId
              (Spec.found (RAGAgent.weaviate (DelegatingAgent.ragAgent this)) tenant 5)
       else []) /\
    Spec.chartTypeOf r
    = (if DelegatingAgent.useChart (DelegatingAgent.analyzeQuery userQuery)
       then Some (DelegatingAgent.chartType (DelegatingAgent.analyzeQuery userQuery))
       else None).
Proof.
  rewrite processQuery_catch.
  destruct (DelegatingAgent.useRAG (DelegatingAgent.analyzeQuery userQuery)) eqn:Hrag;
    destruct (DelegatingAgent.useChart (DelegatingAgent.analyzeQuery userQuery)) eqn:Hchart.
  - destruct (run_rag_and_chart this userQuery tenant tr Hrag Hchart)
      as (rag & tr' & cfg & _ & Hids & Htype & Htry).
    rewrite Htry. eexists _, _. split; [reflexivity|].
    unfold Spec.chartTypeOf. simpl. now rewrite Hids, Htype.
  - destruct (run_rag_only this userQuery tenant tr Hrag Hchart)
      as (rag & tr' & _ & Hids & Htry).
    rewrite Htry. eexists _, _. split; [reflexivity|]. split; [exact Hids|reflexivity].
  - destruct (run_chart_only this userQuery tenant tr Hrag Hchart)
      as (cfg & Htype & _ & Htry).
    rewrite Htry. eexists _, _. split; [reflexivity|].
    unfold Spec.chartTypeOf. simpl. now rewrite Htype.
  - rewrite (run_direct this userQuery tenant tr Hrag Hchart).
    eexists _, _. split; [reflexivity|]. now split.
Qed.

(** C9. Two runs of the orchestrator on the same query and tenant, against
    the same store, return responses with the same file identifiers and the
    same chart type, whatever the language model does in either run (the two
    agents may differ in their language-model configuration and start from
    different traces). *)
Theorem processQuery_stable (this1 this2 : DelegatingAgent.t)
    (userQuery tenant : string) (tr1 tr2 : Trace) :
  RAGAgent.weaviate (DelegatingAgent.ragAgent this1)
  = RAGAgent.weaviate (DelegatingAgent.ragAgent this2) ->
  exists r1 r2 tr1' tr2',
    DelegatingAgent.processQuery this1 userQuery tenant tr1 = (Returned r1, tr1') /\
    DelegatingAgent.processQuery this2 userQuery tenant tr2 = (Returned r2, tr2') /\
    DelegatingAgent.fileIds r1 = DelegatingAgent.fileIds r2 /\
    Spec.chartTypeOf r1 = Spec.chartTypeOf r2.
Proof.
  intros Hstore.
  destruct (processQuery_selection this1 userQuery tenant tr1)
    as (r1 & tr1' & Hrun1 & Hids1 & Htype1).
  destruct (processQuery_selection this2 userQuery tenant tr2)
    as (r2 & tr2' & Hrun2 & Hids2 & Htype2).
  exists r1, r2, tr1', tr2'. split; [exact Hrun1|]. split; [exact Hrun2|].
  split.
  - now rewrite Hids1, Hids2, Hstore.
  - now rewrite Htype1, Htype2.
Qed.

(** The mock language model in one run, a Gemini model out of quota in the
    other. *)
Lemma processQuery_stable_witness :
  exists r1 r2 tr1' tr2',
    DelegatingAgent.processQuery Sample.agent
      "What is AI and show me a pie chart of AI applications" "tenant1" []
    = (Returned r1, tr1') /\
    DelegatingAgent.processQuery Sample.agentExhausted
      "What is AI and show me a pie chart of AI applications" "tenant1" []
    = (Returned r2, tr2') /\
    DelegatingAgent.fileIds r1 = DelegatingAgent.fileIds r2 /\
    Spec.chartTypeOf r1 = Spec.chartTypeOf r2.
Proof.
  apply (processQuery_stable Sample.agent Sample.agentExhausted
           "What is AI and show me a pie chart of AI applications" "tenant1" [] []).
  reflexivity.
Defined.

(** ** The chart tool as an adapter *)

Lemma getColors_fallback (chartType : string) :
  ~ In chartType Spec.chartTypes -> ~ In chartType JSObject.inherited ->
  ChartTool.getColors chartType = ChartTool.getColors "bar".
Proof.
  intros Hown Hproto. unfold ChartTool.getColors at 1.
  now rewrite (get_undefined ChartTool.colors chartType Hown Hproto).
Qed.

Lemma generateSampleData_fallback (chartType : string) :
  ~ In chartType Spec.chartTypes -> ~ In chartType JSObject.inherited ->
  ChartTool.generateSampleData chartType = ChartTool.generateSampleData "bar".
Proof.
  intros Hown Hproto. unfold ChartTool.generateSampleData at 1.
  now rewrite (get_undefined ChartTool.sampleData chartType Hown Hproto).
Qed.

(** A chart type that names a member of [Object.prototype] finds that member,
    not the "bar" palette. *)
Example getColors_constructor :
  ChartTool.getColors "constructor" = JSObject.Inherited "constructor".
Proof. reflexivity. Qed.

(** C10, as stated, fails: for an object input whose [chartType] is the
    string "bar" and whose [data] is missing, the tool returns a failure. *)
Lemma chart_invoke_counterexample :
  ChartTool.invoke Sample.chartTool
    (ChartTool.InputObject
       {| ChartTool.chartType := "bar"; ChartTool.data := None; ChartTool.title := None |})
    []
  = (Returned
       (ChartTool.Failure "Cannot read properties of undefined (reading 'labels')"
                          "Failed to generate chart configuration"), []) /\
  ~ (exists cfg msg tr',
       ChartTool.invoke Sample.chartTool
         (ChartTool.InputObject
            {| ChartTool.chartType := "bar"; ChartTool.data := None;
               ChartTool.title := None |})
         []
       = (Returned (ChartTool.Success cfg msg), tr')).
Proof.
  split; [reflexivity|].
  intros (cfg & msg & tr' & H). vm_compute in H. discriminate H.
Qed.

(** C10, amended. [invoke] never throws and calls no collaborator.  For an
    object input with a string [chartType] whose [data] is neither [null]
    nor [undefined] it returns a success whose chart has the given type, for
    every string, and whose colours are [getColors chartType].  It returns a
    failure exactly when reading the input throws or the request has no
    [data].  For a chart type that is neither one of the four known types nor
    the name of a member of [Object.prototype], the colours and the sample
    data are those of "bar". *)
Theorem chart_invoke_total (this : ChartTool.t) (input : ChartTool.Input) (tr : Trace) :
  exists result,
    ChartTool.invoke this input tr = (Returned result, tr) /\
    (forall o d,
       input = ChartTool.InputObject o -> ChartTool.data o = Some d ->
       exists cfg,
         result = ChartTool.Success cfg
                    ("Generated " ++ ChartTool.chartType o
                     ++ " chart configuration successfully") /\
         ChartTool.type cfg = ChartTool.chartType o /\
         map ChartTool.backgroundColor (ChartTool.datasets (ChartTool.config_data cfg))
         = [ChartTool.getColors (ChartTool.chartType o)]) /\
    (ChartTool.success result = false <->
     (exists e, ChartTool.readInput this input = Thrown e) \/
     (exists request,
        ChartTool.readInput this input = Returned request /\
        ChartTool.data request = None)) /\
    (forall chartType,
       ~ In chartType Spec.chartTypes -> ~ In chartType JSObject.inherited ->
       ChartTool.getColors chartType = ChartTool.getColors "bar" /\
       ChartTool.generateSampleData chartType = ChartTool.generateSampleData "bar").
Proof.
  assert (Hfallback : forall chartType,
            ~ In chartType Spec.chartTypes -> ~ In chartType JSObject.inherited ->
            ChartTool.getColors chartType = ChartTool.getColors "bar" /\
            ChartTool.generateSampleData chartType = ChartTool.generateSampleData "bar").
  { intros chartType Hown Hproto.
    split; [now apply getColors_fallback | now apply generateSampleData_fallback]. }
  unfold ChartTool.invoke, ChartTool._call. run_monad.
  destruct (ChartTool.readInput this input) as [request|e] eqn:Hread.
  - destruct (ChartTool.data request) as [d|] eqn:Hdata.
    + destruct (generateChartConfig_type (ChartTool.chartType request) d
                  (ChartTool.or_default (ChartTool.title request) "Chart"))
        as (cfg & Hcfg & Htype & Hcolors).
      rewrite Hcfg. eexists. split; [reflexivity|]. split; [|split; [|exact Hfallback]].
      * intros o d' -> Hd. simpl in Hread. inversion Hread; subst request.
        exists cfg. now repeat split.
      * simpl. split; [discriminate|].
        intros [[e He] | [request' [Hr Hd]]]; [discriminate|].
        inversion Hr; subst request'. congruence.
    + simpl. eexists. split; [reflexivity|]. split; [|split; [|exact Hfallback]].
      * intros o d -> Hd. simpl in Hread. inversion Hread; subst request. congruence.
      * simpl. split; [|reflexivity]. intros _. right. now exists request.
  - eexists. split; [reflexivity|]. split; [|split; [|exact Hfallback]].
    + intros o d -> _. discriminate Hread.
    + simpl. split; [|reflexivity]. intros _. left. now exists e.
Qed.


(** * Further properties of the code *)

(** ** Strings *)

Lemma includes_trans (s mid sub : string) :
  includes s mid = true -> includes mid sub = true -> includes s sub = true.
Proof.
  rewrite !includes_spec.
  intros (p1 & q1 & ->) (p2 & q2 & ->).
  exists (p1 ++ p2), (q2 ++ q1). now rewrite !append_assoc.
Qed.

Lemma startsWith_empty (s : string) : startsWith s "" = true.
Proof. now destruct s. Qed.

Lemma startsWith_of_empty (k : string) : startsWith "" k = true -> k = "".
Proof. now destruct k. Qed.

Lemma startsWith_includes (s k : string) :
  startsWith s k = true -> includes s k = true.
Proof.
  intros H. destruct s as [|c s].
  - now rewrite includes_nil.
  - now rewrite includes_cons, H.
Qed.

Lemma includes_tail (c : ascii) (s k : string) :
  includes s k = true -> includes (String c s) k = true.
Proof. intros H. rewrite includes_cons, H. apply orb_true_r. Qed.

Lemma startsWith_app_mono (s post p : string) :
  startsWith s p = true -> startsWith (s ++ post) p = true.
Proof.
  rewrite !startsWith_spec. intros [rest ->]. exists (rest ++ post).
  apply append_assoc.
Qed.

Lemma lowerASCII_app (s1 s2 : string) :
  lowerASCII (s1 ++ s2) = lowerASCII s1 ++ lowerASCII s2.
Proof.
  induction s1 as [|c s1 IH]; simpl; [reflexivity | now rewrite IH].
Qed.

(** *** Lower-casing a text inside a longer one

    A character to replace may straddle the place where two byte strings
    are joined; an ASCII text that was found before the join is still found
    after it. *)

Lemma isASCII_cons (a : ascii) (k : string) :
  Denote.isASCII (String a k) = true ->
  (forall x, (128 <= nat_of_ascii x)%nat -> Ascii.eqb a x = false) /\
  Denote.isASCII k = true.
Proof.
  unfold Denote.isASCII. cbn [list_ascii_of_string forallb].
  intros H. apply andb_true_iff in H. destruct H as [Ha Hk]. split; [|exact Hk].
  intros x Hx. apply Nat.ltb_lt in Ha.
  destruct (Ascii.eqb_spec a x) as [->|]; [lia | reflexivity].
Qed.

Ltac not_ascii H :=
  match type of H with
  | context [Ascii.eqb ?a ?x] =>
      match goal with
      | Ha : forall y, (128 <= nat_of_ascii y)%nat -> Ascii.eqb a y = false |- _ =>
          rewrite (Ha x) in H by (vm_compute; lia); discriminate H
      end
  end.

Lemma straddle_dottedI (c : ascii) (q post : string) :
  startsWith (String c q) dottedI = false ->
  startsWith (String c (q ++ post)) dottedI = true ->
  c = "196"%char /\ q = "".
Proof.
  unfold dottedI. cbn [startsWith]. intros Hq Hjoin.
  apply andb_true_iff in Hjoin. destruct Hjoin as [Hc Hjoin].
  apply Ascii.eqb_eq in Hc. subst c. split; [reflexivity|].
  destruct q as [|d q]; [reflexivity|].
  cbn [append startsWith] in Hq, Hjoin.
  rewrite startsWith_empty in Hq, Hjoin.
  rewrite Ascii.eqb_refl in Hq. cbn [andb] in Hq. congruence.
Qed.

Lemma straddle_kelvin (c : ascii) (q post : string) :
  startsWith (String c q) kelvin = false ->
  startsWith (String c (q ++ post)) kelvin = true ->
  c = "226"%char /\ (q = "" \/ q = String "132"%char EmptyString).
Proof.
  unfold kelvin. cbn [startsWith]. intros Hq Hjoin.
  apply andb_true_iff in Hjoin. destruct Hjoin as [Hc Hjoin].
  apply Ascii.eqb_eq in Hc. subst c. split; [reflexivity|].
  destruct q as [|d q]; [now left|]. right.
  cbn [append startsWith] in Hq, Hjoin.
  apply andb_true_iff in Hjoin. destruct Hjoin as [Hd Hjoin].
  apply Ascii.eqb_eq in Hd. subst d.
  destruct q as [|e q]; [reflexivity|].
  cbn [append startsWith] in Hq, Hjoin.
  rewrite startsWith_empty in Hq, Hjoin.
  rewrite !Ascii.eqb_refl in Hq. cbn [andb] in Hq. congruence.
Qed.

Lemma lowerSpecial_startsWith_app (q : string) :
  forall (skip : nat) (post k : string),
    Denote.isASCII k = true ->
    startsWith (lowerSpecial skip q) k = true ->
    startsWith (lowerSpecial skip (q ++ post)) k = true.
Proof.
  induction q as [|c q IH]; intros skip post k Hk H.
  - cbn [lowerSpecial] in H. apply startsWith_of_empty in H. subst k.
    apply startsWith_empty.
  - cbn [append lowerSpecial] in *. destruct skip as [|n]; [|now apply IH].
    destruct k as [|a k1]; [apply startsWith_empty|].
    destruct (isASCII_cons _ _ Hk) as [Ha Hk1].
    change (String c (q ++ post)) with (String c q ++ post).
    destruct (startsWith (String c q) dottedI) eqn:Hd.
    { rewrite (startsWith_app_mono _ post _ Hd).
      unfold iDot in *. cbn [append startsWith] in *.
      apply andb_true_iff in H. destruct H as [Hi H]. rewrite Hi.
      destruct k1 as [|b k2]; [reflexivity|].
      destruct (isASCII_cons _ _ Hk1) as [Hb _].
      cbn [startsWith] in H. not_ascii H. }
    destruct (startsWith (String c q ++ post) dottedI) eqn:Hd'.
    { destruct (straddle_dottedI c q post Hd Hd') as [-> ->].
      cbn in H. not_ascii H. }
    destruct (startsWith (String c q) kelvin) eqn:Hkel.
    { rewrite (startsWith_app_mono _ post _ Hkel).
      cbn [startsWith] in *.
      apply andb_true_iff in H. destruct H as [Hi H]. rewrite Hi.
      now apply IH. }
    destruct (startsWith (String c q ++ post) kelvin) eqn:Hkel'.
    { destruct (straddle_kelvin c q post Hkel Hkel') as [-> [-> | ->]];
        cbn in H; not_ascii H. }
    cbn [startsWith] in *.
    apply andb_true_iff in H. destruct H as [Hi H]. rewrite Hi.
    now apply IH.
Qed.
Lemma includes_empty_sub (s : string) : includes s "" = true.
Proof. apply startsWith_includes, startsWith_empty. Qed.

Lemma includes_skip_byte (x : ascii) (s : string) (a : ascii) (k : string) :
  (128 <= nat_of_ascii x)%nat ->
  (forall y, (128 <= nat_of_ascii y)%nat -> Ascii.eqb a y = false) ->
  includes (String x s) (String a k) = includes s (String a k).
Proof.
  intros Hx Ha. rewrite includes_cons. cbn [startsWith]. now rewrite (Ha x Hx).
Qed.

Lemma lowerSpecial_includes_app (a : ascii) (k1 : string) (q : string) :
  Denote.isASCII (String a k1) = true ->
  forall (skip : nat) (post : string),
    includes (lowerSpecial skip q) (String a k1) = true ->
    includes (lowerSpecial skip (q ++ post)) (String a k1) = true.
Proof.
  intros Hk. destruct (isASCII_cons _ _ Hk) as [Ha _].
  induction q as [|c q IH]; intros skip post H.
  - cbn [lowerSpecial] in H. rewrite includes_nil in H. discriminate H.
  - destruct skip as [|n]; [|cbn [append lowerSpecial] in *; now apply IH].
    destruct (startsWith (lowerSpecial 0 (String c q)) (String a k1)) eqn:Hhead.
    { apply startsWith_includes.
      now apply (lowerSpecial_startsWith_app (String c q) 0 post _ Hk). }
    cbn [append lowerSpecial] in *.
    change (String c (q ++ post)) with (String c q ++ post).
    destruct (startsWith (String c q) dottedI) eqn:Hd.
    { rewrite (startsWith_app_mono _ post _ Hd).
      unfold iDot in *. cbn [append] in *.
      rewrite includes_cons, Hhead in H. cbn [orb] in H.
      rewrite !includes_skip_byte in H by (assumption || (vm_compute; lia)).
      do 3 apply includes_tail. now apply IH. }
    destruct (startsWith (String c q ++ post) dottedI) eqn:Hd'.
    { destruct (straddle_dottedI c q post Hd Hd') as [-> ->].
      cbn in H. rewrite !Ha in H by (vm_compute; lia). discriminate H. }
    destruct (startsWith (String c q) kelvin) eqn:Hkel.
    { rewrite (startsWith_app_mono _ post _ Hkel).
      rewrite includes_cons, Hhead in H. cbn [orb] in H.
      apply includes_tail. now apply IH. }
    destruct (startsWith (String c q ++ post) kelvin) eqn:Hkel'.
    { destruct (straddle_kelvin c q post Hkel Hkel') as [-> [-> | ->]];
        cbn in H; rewrite !Ha in H by (vm_compute; lia); discriminate H. }
    rewrite includes_cons, Hhead in H. cbn [orb] in H.
    apply includes_tail. now apply IH.
Qed.

Lemma lowerSpecial_kept (c : ascii) (s : string) :
  Ascii.eqb "196" c = false -> Ascii.eqb "226" c = false ->
  lowerSpecial 0 (String c s) = String c (lowerSpecial 0 s).
Proof.
  intros H1 H2. cbn [lowerSpecial]. unfold dottedI, kelvin.
  cbn [startsWith]. now rewrite H1, H2.
Qed.

Lemma startsWith_cons_inv (c d : ascii) (s p : string) :
  startsWith (String d s) (String c p) = true -> d = c /\ startsWith s p = true.
Proof.
  cbn [startsWith]. intros H. apply andb_true_iff in H. destruct H as [H1 H2].
  apply Ascii.eqb_eq in H1. now subst.
Qed.

Lemma startsWith_app_cons_inv (c : ascii) (pre s p : string) :
  startsWith (pre ++ s) (String c p) = true ->
  (pre = "" /\ exists r, s = String c r /\ startsWith r p = true) \/
  (exists pre', pre = String c pre' /\ startsWith (pre' ++ s) p = true).
Proof.
  destruct pre as [|d pre]; cbn [append]; intros H.
  - left. split; [reflexivity|]. destruct s as [|d r]; [discriminate H|].
    apply startsWith_cons_inv in H. destruct H as [-> H]. now exists r.
  - right. apply startsWith_cons_inv in H. destruct H as [-> H]. now exists pre.
Qed.

Lemma lowerSpecial_includes_pre (a : ascii) (k1 : string) (s : string) :
  Denote.isASCII (String a k1) = true ->
  includes (lowerSpecial 0 s) (String a k1) = true ->
  forall (n : nat) (pre : string),
    (String.length pre <= n)%nat ->
    includes (lowerSpecial 0 (pre ++ s)) (String a k1) = true.
Proof.
  intros Hk H. destruct (isASCII_cons _ _ Hk) as [Ha _].
  induction n as [|n IH]; intros pre Hlen.
  - destruct pre; [exact H | cbn in Hlen; lia].
  - destruct pre as [|c pre]; [exact H|].
    cbn [String.length] in Hlen. cbn [append lowerSpecial].
    destruct (startsWith (String c (pre ++ s)) dottedI) eqn:Hd.
    { unfold dottedI in Hd. apply startsWith_cons_inv in Hd. destruct Hd as [_ Hd].
      unfold iDot. cbn [append]. do 3 apply includes_tail.
      apply startsWith_app_cons_inv in Hd.
      destruct Hd as [[-> [r [-> _]]] | [pre' [-> _]]]; cbn [append lowerSpecial].
      - rewrite lowerSpecial_kept, includes_skip_byte in H
          by (assumption || reflexivity || (vm_compute; lia)).
        exact H.
      - apply IH. cbn [String.length] in Hlen. lia. }
    destruct (startsWith (String c (pre ++ s)) kelvin) eqn:Hkel.
    { unfold kelvin in Hkel. apply startsWith_cons_inv in Hkel.
      destruct Hkel as [_ Hkel]. apply includes_tail.
      apply startsWith_app_cons_inv in Hkel.
      destruct Hkel as [[-> [r [-> Hkel]]] | [pre' [-> Hkel]]];
        cbn [append lowerSpecial].
      - destruct r as [|e r]; [discriminate Hkel|].
        apply startsWith_cons_inv in Hkel. destruct Hkel as [-> _].
        rewrite lowerSpecial_kept, includes_skip_byte in H
          by (assumption || reflexivity || (vm_compute; lia)).
        rewrite lowerSpecial_kept, includes_skip_byte in H
          by (assumption || reflexivity || (vm_compute; lia)).
        exact H.
      - apply startsWith_app_cons_inv in Hkel.
        destruct Hkel as [[-> [r [-> _]]] | [pre'' [-> _]]];
          cbn [append lowerSpecial].
        + rewrite lowerSpecial_kept, includes_skip_byte in H
            by (assumption || reflexivity || (vm_compute; lia)).
          exact H.
        + apply IH. cbn [String.length] in Hlen. lia. }
    apply includes_tail. apply IH. lia.
Qed.

(** An ASCII text found in the lower case of a query is found in the lower
    case of every text that contains the query. *)
Lemma includes_embed (pre s post sub : string) :
  Denote.isASCII sub = true ->
  includes (toLowerCase s) sub = true ->
  includes (toLowerCase (pre ++ s ++ post)) sub = true.
Proof.
  intros Hsub H. destruct sub as [|a k1]; [apply includes_empty_sub|].
  unfold toLowerCase in *. rewrite !lowerASCII_app.
  apply (lowerSpecial_includes_pre a k1 _ Hsub) with (n := String.length (lowerASCII pre));
    [|lia].
  now apply lowerSpecial_includes_app.
Qed.

Lemma lowerSpecial_ASCII (s : string) :
  Denote.isASCII s = true -> lowerSpecial 0 s = s.
Proof.
  induction s as [|a s IH]; intros H; [reflexivity|].
  destruct (isASCII_cons _ _ H) as [Ha Hs].
  assert (Hne : forall x, (128 <= nat_of_ascii x)%nat -> Ascii.eqb x a = false).
  { intros x Hx. destruct (Ascii.eqb_spec x a) as [->|]; [|reflexivity].
    specialize (Ha a Hx). now rewrite Ascii.eqb_refl in Ha. }
  rewrite lowerSpecial_kept by (apply Hne; vm_compute; lia).
  now rewrite IH.
Qed.

Lemma lowerASCII_isASCII (s : string) :
  Denote.isASCII s = true -> Denote.isASCII (lowerASCII s) = true.
Proof.
  unfold Denote.isASCII.
  induction s as [|a s IH]; [reflexivity|].
  cbn [lowerASCII list_ascii_of_string forallb]. intros H.
  apply andb_true_iff in H. destruct H as [Ha Hs].
  rewrite (IH Hs), andb_true_r. apply Nat.ltb_lt in Ha. apply Nat.ltb_lt.
  unfold lowerChar.
  destruct ((65 <=? nat_of_ascii a)%nat && (nat_of_ascii a <=? 90)%nat)%bool eqn:Hup;
    [|exact Ha].
  apply andb_true_iff in Hup. destruct Hup as [_ Hup]. apply Nat.leb_le in Hup.
  rewrite nat_ascii_embedding; lia.
Qed.

(** On an ASCII text, lower-casing replaces the letters A to Z and nothing
    else. *)
Lemma toLowerCase_ASCII (s : string) :
  Denote.isASCII s = true -> toLowerCase s = lowerASCII s.
Proof.
  intros H. unfold toLowerCase. apply lowerSpecial_ASCII. now apply lowerASCII_isASCII.
Qed.

(** The two characters outside ASCII that an ASCII keyword can meet: "AI"
    written with a dotted capital I is a retrieval query, and "JOKE" written
    with the Kelvin sign gets the joke. *)
Example toLowerCase_special :
  toLowerCase ("A" ++ dottedI) = "a" ++ iDot /\
  toLowerCase ("TELL ME A JO" ++ kelvin ++ "E") = "tell me a joke" /\
  DelegatingAgent.useRAG (DelegatingAgent.analyzeQuery ("A" ++ dottedI)) = true /\
  DelegatingAgent.useRAG
    (DelegatingAgent.analyzeQuery ("TELL ME A JO" ++ kelvin ++ "E")) = false /\
  DelegatingAgent.provideDirectAnswer ("TELL ME A JO" ++ kelvin ++ "E")
  = DelegatingAgent.provideDirectAnswer "tell me a joke".
Proof. repeat split; reflexivity. Qed.

(** ** The language-model client as a function *)

Lemma LLMConfig_invoke_exact (this : LLMConfig.t) (messages : list Message) (tr : Trace) :
  LLMConfig.invoke this messages tr
  = (Returned (Denote.llmReply this messages),
     (tr ++ Denote.llmEvents this messages)%list).
Proof.
  unfold LLMConfig.invoke, LLMConfig.llm_invoke, Denote.llmReply, Denote.llmEvents.
  destruct (LLMConfig.lastMessage messages) as [m|] eqn:Hlast.
  - destruct (LLMConfig.backend this) as [|generateContent].
    + run_monad. now rewrite (createMockLLM_invoke_returns this _ _ _ Hlast).
    + unfold LLMConfig.gemini_invoke. run_monad. rewrite Hlast.
      rewrite <- app_assoc. cbn [app].
      destruct (generateContent (content m)) as [text|e]; [reflexivity|].
      destruct (LLMConfig.isRateLimit e) eqn:Hrate.
      * now rewrite (createMockLLM_invoke_returns this _ _ _ Hlast).
      * now rewrite Hrate.
  - destruct (LLMConfig.backend this) as [|generateContent].
    + unfold LLMConfig.createMockLLM_invoke. run_monad. rewrite Hlast.
      now rewrite isRateLimit_TypeError_content.
    + unfold LLMConfig.gemini_invoke, LLMConfig.createMockLLM_invoke.
      run_monad. rewrite Hlast.
      now rewrite isRateLimit_TypeError_content, isRateLimit_TypeError_content.
Qed.

(** ** The store and the RAG agent as functions *)

Lemma searchDocuments_exact (store : WeaviateSetup.t) (query tenant : string)
    (limit : nat) (tr : Trace) :
  WeaviateSetup.searchDocuments store query tenant limit tr
  = (Returned (Spec.found store tenant limit),
     (tr ++ Denote.searchEvents store query tenant limit)%list).
Proof.
  unfold WeaviateSetup.searchDocuments, Spec.found, Denote.searchEvents. run_monad.
  destruct (WeaviateSetup.client store) as [run|]; [|now rewrite app_nil_r].
  now destruct (run limit) as [[docs|]|e].
Qed.

Lemma fetchObjectsByFileIds_exact (store : WeaviateSetup.t) (fileIds : list string)
    (tenant : string) (tr : Trace) :
  WeaviateSetup.fetchObjectsByFileIds store fileIds tenant tr
  = (Returned (Denote.fetched store fileIds tenant), tr).
Proof.
  unfold WeaviateSetup.fetchObjectsByFileIds, Denote.fetched. run_monad.
  destruct (WeaviateSetup.client store) as [run|]; [|reflexivity].
  now destruct (run (length fileIds)) as [[docs|]|e].
Qed.

(** Rebuilding a document field by field gives the document back. *)
Lemma references_copy (docs : list Document.t) :
  map (fun doc => Document.mk (Document.fileId doc) (Document.question doc)
                              (Document.answer doc) (Document.tenant doc)) docs
  = docs.
Proof.
  induction docs as [|[i q a t] docs IH]; simpl; [reflexivity | now rewrite IH].
Qed.

Lemma RAGAgent_processQuery_exact (this : RAGAgent.t) (userQuery tenant : string)
    (tr : Trace) :
  RAGAgent.processQuery this userQuery tenant tr
  = (Returned (Denote.ragResult this userQuery tenant),
     (tr ++ Denote.ragEvents this userQuery tenant)%list).
Proof.
  unfold RAGAgent.processQuery, Denote.ragResult, Denote.ragEvents.
  unfold bind at 1. unfold try_catch. rewrite searchDocuments_exact.
  destruct (Spec.found (RAGAgent.weaviate this) tenant 5) as [|doc docs].
  - simpl. now rewrite app_nil_r.
  - cbn [length Nat.eqb]. unfold bind. fold (Denote.context (doc :: docs)).
    rewrite LLMConfig_invoke_exact. unfold ret.
    now rewrite references_copy, app_assoc.
Qed.

(** ** The chart tool and the orchestrator as functions *)

Lemma prepared_chart (this : ChartTool.t) (userQuery : string) (tr : Trace) :
  exists cfg,
    Denote.chart userQuery = Some cfg /\
    ChartTool.invoke this
      (ChartTool.InputObject
         (DelegatingAgent.prepareChartInput userQuery
            (DelegatingAgent.chartType (DelegatingAgent.analyzeQuery userQuery)))) tr
    = (Returned
         (ChartTool.Success cfg
            ("Generated "
             ++ DelegatingAgent.chartType (DelegatingAgent.analyzeQuery userQuery)
             ++ " chart configuration successfully")), tr).
Proof.
  unfold Denote.chart, ChartTool.invoke, ChartTool._call, ChartTool.readInput.
  run_monad. cbn [DelegatingAgent.prepareChartInput ChartTool.chartType ChartTool.data
                  ChartTool.title ChartTool.or_default].
  unfold ChartTool.generateChartConfig. eexists. split; reflexivity.
Qed.

Lemma processQuery_exact (this : DelegatingAgent.t) (userQuery tenant : string)
    (tr : Trace) :
  DelegatingAgent.processQuery this userQuery tenant tr
  = (Returned (Denote.response this userQuery tenant),
     (tr ++ Denote.events this userQuery tenant)%list).
Proof.
  rewrite processQuery_catch.
  unfold DelegatingAgent.processQuery_try, DelegatingAgent.dispatch,
    Denote.response, Denote.events.
  destruct (DelegatingAgent.useRAG (DelegatingAgent.analyzeQuery userQuery)) eqn:Hrag;
    destruct (DelegatingAgent.useChart (DelegatingAgent.analyzeQuery userQuery)) eqn:Hchart;
    run_monad; cbn [negb andb]; rewrite ?RAGAgent_processQuery_exact.
  - cbv zeta.
    destruct (prepared_chart (DelegatingAgent.chartTool this) userQuery
                (tr ++ Denote.ragEvents (DelegatingAgent.ragAgent this) userQuery tenant)%list)
      as (cfg & Hcfg & Hrun).
    rewrite Hrun, Hcfg. reflexivity.
  - reflexivity.
  - destruct (prepared_chart (DelegatingAgent.chartTool this) userQuery tr)
      as (cfg & Hcfg & Hrun).
    rewrite Hrun, Hcfg, app_nil_r. reflexivity.
  - now rewrite app_nil_r.
Qed.


(** ** More on the router *)

Ltac orb_true_cases H :=
  repeat (apply orb_true_iff in H; destruct H as [H|H]).

Ltac orb_false_all H :=
  repeat match type of H with
         | (_ || _)%bool = false =>
             let H' := fresh "Hk" in
             apply orb_false_iff in H; destruct H as [H H']
         end.

(** X1. Text added before or after a query never removes a capability: a
    query routed to retrieval (to the chart tool) is still routed there when
    it is embedded in a longer text, and a "pie" chart stays a "pie" chart. *)
Theorem analyzeQuery_embedding (pre userQuery post : string) :
  (DelegatingAgent.useRAG (DelegatingAgent.analyzeQuery userQuery) = true ->
   DelegatingAgent.useRAG (DelegatingAgent.analyzeQuery (pre ++ userQuery ++ post)) = true) /\
  (DelegatingAgent.useChart (DelegatingAgent.analyzeQuery userQuery) = true ->
   DelegatingAgent.useChart (DelegatingAgent.analyzeQuery (pre ++ userQuery ++ post)) = true) /\
  (DelegatingAgent.chartType (DelegatingAgent.analyzeQuery userQuery) = "pie" ->
   DelegatingAgent.chartType (DelegatingAgent.analyzeQuery (pre ++ userQuery ++ post)) = "pie").
Proof.
  unfold DelegatingAgent.analyzeQuery.
  cbn [DelegatingAgent.useRAG DelegatingAgent.useChart DelegatingAgent.chartType].
  split; [|split].
  - intros H. orb_true_cases H;
      (apply (includes_embed pre userQuery post) in H;
       [rewrite H; now rewrite ?orb_true_r | reflexivity]).
  - intros H. orb_true_cases H;
      (apply (includes_embed pre userQuery post) in H;
       [rewrite H; now rewrite ?orb_true_r | reflexivity]).
  - intros H.
    destruct (includes (toLowerCase userQuery) "pie") eqn:Hpie.
    + apply (includes_embed pre userQuery post) in Hpie; [|reflexivity].
      now rewrite Hpie.
    + destruct (includes (toLowerCase userQuery) "line");
        [discriminate|].
      destruct (includes (toLowerCase userQuery) "doughnut"); discriminate.
Qed.

(** "how" is a retrieval query, and so is the greeting built around it. *)
Lemma analyzeQuery_embedding_witness :
  DelegatingAgent.useRAG
    (DelegatingAgent.analyzeQuery ("Hello, " ++ "how" ++ " are you?")) = true /\
  DelegatingAgent.chartType
    (DelegatingAgent.analyzeQuery ("A line and a " ++ "PIE" ++ " chart")) = "pie".
Proof.
  split.
  - apply (proj1 (analyzeQuery_embedding "Hello, " "how" " are you?")). reflexivity.
  - apply (proj2 (proj2 (analyzeQuery_embedding "A line and a " "PIE" " chart"))).
    reflexivity.
Defined.

(** X2. [determineChartType] and the router rank the chart keywords
    differently ("bar" first against "pie" first): on a query they return
    the same chart type exactly when the query does not mention "bar"
    together with another chart type, nor "line" together with "pie". *)
Theorem determineChartType_agreement (userQuery : string) :
  let query := toLowerCase userQuery in
  DelegatingAgent.determineChartType userQuery
  = DelegatingAgent.chartType (DelegatingAgent.analyzeQuery userQuery)
  <->
  (includes query "bar"
   && (includes query "pie" || includes query "line" || includes query "doughnut")
   || includes query "line" && includes query "pie") = false.
Proof.
  cbv zeta. unfold DelegatingAgent.determineChartType, DelegatingAgent.analyzeQuery.
  cbn [DelegatingAgent.chartType].
  destruct (includes (toLowerCase userQuery) "bar"),
           (includes (toLowerCase userQuery) "line"),
           (includes (toLowerCase userQuery) "pie"),
           (includes (toLowerCase userQuery) "doughnut");
    cbn [andb orb]; split; intros H; try reflexivity; discriminate H.
Qed.

(** X3. When the router selects no retrieval, the test for "how are you" in
    the direct adapter decides nothing: the direct answer is the greeting
    exactly when the text contains "hello", and otherwise follows "weather",
    then "joke". *)
Theorem direct_answer_cascade (this : DelegatingAgent.t) (userQuery tenant : string)
    (tr : Trace) :
  DelegatingAgent.useRAG (DelegatingAgent.analyzeQuery userQuery) = false ->
  DelegatingAgent.useChart (DelegatingAgent.analyzeQuery userQuery) = false ->
  exists r,
    DelegatingAgent.processQuery this userQuery tenant tr = (Returned r, tr) /\
    DelegatingAgent.toolsUsed r = ["Direct"] /\
    DelegatingAgent.answer r
    = (if includes (toLowerCase userQuery) "hello" then
         "Hello! I am doing well, thank you for asking. How can I help you today?"
       else if includes (toLowerCase userQuery) "weather" then
         "I cannot provide real-time weather information, but I can help you with other questions!"
       else if includes (toLowerCase userQuery) "joke" then
         "Why did the AI go to therapy? Because it had too many neural issues! 😄"
       else
         "I understand your query. Let me provide you with a helpful response based on my knowledge.").
Proof.
  intros Hrag Hchart.
  rewrite processQuery_catch, (run_direct this userQuery tenant tr Hrag Hchart).
  eexists. split; [reflexivity|]. split; [reflexivity|].
  cbn [DelegatingAgent.answer]. unfold DelegatingAgent.provideDirectAnswer at 1.
  assert (Hhow : includes (toLowerCase userQuery) "how are you" = false).
  { destruct (includes (toLowerCase userQuery) "how are you") eqn:H; [|reflexivity].
    assert (Hk : includes (toLowerCase userQuery) "how" = true)
      by (apply (includes_trans _ _ _ H); reflexivity).
    unfold DelegatingAgent.analyzeQuery in Hrag. cbn [DelegatingAgent.useRAG] in Hrag.
    rewrite Hk in Hrag. cbn [orb] in Hrag. rewrite ?orb_true_r in Hrag.
    discriminate Hrag. }
  rewrite Hhow, orb_false_r.
  destruct (includes (toLowerCase userQuery) "hello"); [reflexivity|].
  destruct (includes (toLowerCase userQuery) "weather"); [reflexivity|].
  destruct (includes (toLowerCase userQuery) "joke"); reflexivity.
Qed.

Lemma direct_answer_cascade_witness :
  exists r,
    DelegatingAgent.processQuery Sample.agent "Tell me a joke" "tenant1" [] = (Returned r, []) /\
    DelegatingAgent.toolsUsed r = ["Direct"] /\
    DelegatingAgent.answer r = "Why did the AI go to therapy? Because it had too many neural issues! 😄".
Proof.
  apply (direct_answer_cascade Sample.agent "Tell me a joke" "tenant1" []); reflexivity.
Defined.

(** ** More on the orchestrator *)

(** X4. The tools of a response are decided by the router alone: ["RAG";
    "Chart"], ["RAG"], ["Chart"] or ["Direct"].  No query, store or language
    model makes [processQuery] answer with ["Error"]. *)
Theorem toolsUsed_by_router (this : DelegatingAgent.t) (userQuery tenant : string)
    (tr : Trace) :
  exists r tr',
    DelegatingAgent.processQuery this userQuery tenant tr = (Returned r, tr') /\
    DelegatingAgent.toolsUsed r
    = match DelegatingAgent.useRAG (DelegatingAgent.analyzeQuery userQuery),
            DelegatingAgent.useChart (DelegatingAgent.analyzeQuery userQuery) with
      | true, true => ["RAG"; "Chart"]
      | true, false => ["RAG"]
      | false, true => ["Chart"]
      | false, false => ["Direct"]
      end /\
    ~ In "Error" (DelegatingAgent.toolsUsed r).
Proof.
  rewrite processQuery_exact. eexists _, _. split; [reflexivity|].
  unfold Denote.response.
  destruct (DelegatingAgent.useRAG (DelegatingAgent.analyzeQuery userQuery)),
           (DelegatingAgent.useChart (DelegatingAgent.analyzeQuery userQuery));
    (split; [reflexivity|]); simpl; intuition discriminate.
Qed.

(** X5. A query makes at most one search, at most one call of
    [LLMConfig.invoke] and at most one call of the Gemini model, and none at
    all unless the router selected retrieval. *)
Theorem collaborator_calls (this : DelegatingAgent.t) (userQuery tenant : string)
    (tr : Trace) :
  exists r calls,
    DelegatingAgent.processQuery this userQuery tenant tr
    = (Returned r, (tr ++ calls)%list) /\
    (DelegatingAgent.useRAG (DelegatingAgent.analyzeQuery userQuery) = false ->
     calls = []) /\
    Denote.count Denote.isSearch calls <= 1 /\
    Denote.count Denote.isInvoke calls <= 1 /\
    Denote.count Denote.isGenerate calls <= 1.
Proof.
  rewrite processQuery_exact. eexists _, _. split; [reflexivity|].
  unfold Denote.events, Denote.ragEvents, Denote.searchEvents, Denote.llmEvents.
  destruct (DelegatingAgent.useRAG (DelegatingAgent.analyzeQuery userQuery)).
  - split; [discriminate|].
    destruct (WeaviateSetup.client (RAGAgent.weaviate (DelegatingAgent.ragAgent this)));
      destruct (Spec.found (RAGAgent.weaviate (DelegatingAgent.ragAgent this)) tenant 5);
      destruct (LLMConfig.backend (RAGAgent.llm (DelegatingAgent.ragAgent this)));
      cbn; repeat split; lia.
  - cbn. repeat split; lia.
Qed.

(** X6. The language model never sees the documents: the only prompt a
    query sends to the Gemini model is the text of the query itself, and the
    last message handed to [LLMConfig.invoke] is the query as the human
    message. *)
Theorem prompt_is_the_query (this : DelegatingAgent.t) (userQuery tenant : string)
    (tr : Trace) :
  exists r calls,
    DelegatingAgent.processQuery this userQuery tenant tr
    = (Returned r, (tr ++ calls)%list) /\
    (forall prompt, In (EvGenerate prompt) calls -> prompt = userQuery) /\
    (forall messages,
       In (EvLLMInvoke messages) calls ->
       LLMConfig.lastMessage messages = Some (mkMessage "human" userQuery)).
Proof.
  rewrite processQuery_exact. eexists _, _. split; [reflexivity|].
  unfold Denote.events, Denote.ragEvents, Denote.searchEvents, Denote.llmEvents.
  destruct (DelegatingAgent.useRAG (DelegatingAgent.analyzeQuery userQuery));
    [|split; intros ? []].
  destruct (WeaviateSetup.client (RAGAgent.weaviate (DelegatingAgent.ragAgent this)));
    destruct (Spec.found (RAGAgent.weaviate (DelegatingAgent.ragAgent this)) tenant 5);
    destruct (LLMConfig.backend (RAGAgent.llm (DelegatingAgent.ragAgent this)));
    cbn; split; intros x Hin;
    repeat match goal with
           | H : _ \/ _ |- _ => destruct H as [H|H]
           | H : False |- _ => contradiction
           | H : EvSearch _ _ _ = _ |- _ => discriminate H
           | H : EvLLMInvoke _ = EvGenerate _ |- _ => discriminate H
           | H : EvGenerate _ = EvLLMInvoke _ |- _ => discriminate H
           | H : EvGenerate _ = EvGenerate _ |- _ => inversion H; subst; clear H
           | H : EvLLMInvoke _ = EvLLMInvoke _ |- _ => inversion H; subst; clear H
           end; reflexivity.
Qed.

(** X7. In every response the file identifiers are those of the references,
    in the same order. *)
Theorem fileIds_of_references (this : DelegatingAgent.t) (userQuery tenant : string)
    (tr : Trace) :
  exists r tr',
    DelegatingAgent.processQuery this userQuery tenant tr = (Returned r, tr') /\
    DelegatingAgent.fileIds r = map Document.fileId (DelegatingAgent.references r).
Proof.
  rewrite processQuery_exact. eexists _, _. split; [reflexivity|].
  unfold Denote.response, Denote.ragResult.
  destruct (DelegatingAgent.useRAG (DelegatingAgent.analyzeQuery userQuery)),
           (DelegatingAgent.useChart (DelegatingAgent.analyzeQuery userQuery));
    try reflexivity;
    now destruct (Spec.found (RAGAgent.weaviate (DelegatingAgent.ragAgent this)) tenant 5).
Qed.

(** X8. The chart of a response depends on the text of the query only: not
    on the tenant, the store, the language model or what happened before. *)
Theorem chart_depends_on_query_only (this1 this2 : DelegatingAgent.t)
    (userQuery tenant1 tenant2 : string) (tr1 tr2 : Trace) :
  exists r1 r2 tr1' tr2',
    DelegatingAgent.processQuery this1 userQuery tenant1 tr1 = (Returned r1, tr1') /\
    DelegatingAgent.processQuery this2 userQuery tenant2 tr2 = (Returned r2, tr2') /\
    DelegatingAgent.chartConfig r1 = DelegatingAgent.chartConfig r2.
Proof.
  rewrite !processQuery_exact. eexists _, _, _, _.
  split; [reflexivity|]. split; [reflexivity|].
  unfold Denote.response.
  now destruct (DelegatingAgent.useRAG (DelegatingAgent.analyzeQuery userQuery)),
               (DelegatingAgent.useChart (DelegatingAgent.analyzeQuery userQuery)).
Qed.

(** X9. Every chart the orchestrator returns is well formed: its type is one
    of the four types of the schema, its title is "Chart for: " followed by
    the query, it has one dataset whose data is an array of as many values
    as there are labels (at least one), coloured with a palette of the tool's
    own table, and it has scales exactly when it is neither a pie nor a
    doughnut. *)
Theorem chart_well_formed (this : DelegatingAgent.t) (userQuery tenant : string)
    (tr : Trace) :
  exists r tr',
    DelegatingAgent.processQuery this userQuery tenant tr = (Returned r, tr') /\
    forall cfg,
      DelegatingAgent.chartConfig r = Some cfg ->
      In (ChartTool.type cfg) Spec.chartTypes /\
      ChartTool.text (ChartTool.plugins_title (ChartTool.plugins (ChartTool.options cfg)))
      = "Chart for: " ++ userQuery /\
      (ChartTool.scales (ChartTool.options cfg) = None <->
       ChartTool.type cfg = "pie" \/ ChartTool.type cfg = "doughnut") /\
      exists dataset palette values,
        ChartTool.datasets (ChartTool.config_data cfg) = [dataset] /\
        ChartTool.backgroundColor dataset = JSObject.Own palette /\
        palette <> [] /\
        ChartTool.data_labels (ChartTool.config_data cfg) <> [] /\
        ChartTool.dataset_data dataset = ChartTool.Numbers values /\
        length values
        = length (ChartTool.data_labels (ChartTool.config_data cfg)).
Proof.
  rewrite processQuery_exact. eexists _, _. split; [reflexivity|].
  intros cfg Hcfg.
  assert (Hchart : Denote.chart userQuery = Some cfg).
  { unfold Denote.response in Hcfg.
    destruct (DelegatingAgent.useRAG (DelegatingAgent.analyzeQuery userQuery)),
             (DelegatingAgent.useChart (DelegatingAgent.analyzeQuery userQuery));
      cbn in Hcfg; try discriminate Hcfg; exact Hcfg. }
  clear Hcfg. unfold Denote.chart, DelegatingAgent.analyzeQuery in Hchart.
  cbn [DelegatingAgent.chartType] in Hchart.
  destruct (includes (toLowerCase userQuery) "pie");
    [|destruct (includes (toLowerCase userQuery) "line");
      [|destruct (includes (toLowerCase userQuery) "doughnut")]];
    cbn in Hchart; inversion Hchart; subst cfg; clear Hchart; cbn;
    (split; [tauto|]); (split; [reflexivity|]);
    (split; [split; [intros H; (discriminate H || tauto)
                    | intros [H|H]; (discriminate H || reflexivity)]|]);
    eexists _, _, _; (split; [reflexivity|]); (split; [reflexivity|]);
    (split; [discriminate|]); (split; [discriminate|]);
    (split; reflexivity).
Qed.

(** ** More on the RAG agent *)

(** X10. When the search finds documents, the RAG agent invokes the language
    model once, on the prompt built from the documents and the query, and
    returns its reply as the answer, the identifiers of the documents as
    [fileIds] and the documents themselves, in order, as [references]. *)
Theorem RAGAgent_found_documents (this : RAGAgent.t) (userQuery tenant : string)
    (tr tr1 : Trace) (docs : list Document.t) :
  WeaviateSetup.searchDocuments (RAGAgent.weaviate this) userQuery tenant 5 tr
  = (Returned docs, tr1) ->
  docs <> [] ->
  exists reply tr2,
    LLMConfig.invoke (RAGAgent.llm this)
      (RAGAgent.formatMessages (Denote.context docs) userQuery) tr1
    = (Returned reply, tr2) /\
    RAGAgent.processQuery this userQuery tenant tr
    = (Returned {| RAGAgent.answer := LLMConfig.reply_content reply;
                   RAGAgent.fileIds := map Document.fileId docs;
                   RAGAgent.references := docs |}, tr2).
Proof.
  intros Hsearch Hdocs.
  rewrite searchDocuments_exact in Hsearch. injection Hsearch as Hfound Htr.
  rewrite LLMConfig_invoke_exact, RAGAgent_processQuery_exact.
  eexists _, _. split; [reflexivity|].
  unfold Denote.ragResult, Denote.ragEvents. rewrite Hfound.
  destruct docs as [|doc docs]; [contradiction|].
  now rewrite <- Htr, app_assoc.
Qed.

Lemma RAGAgent_found_documents_witness :
  exists reply tr2,
    LLMConfig.invoke Fixture.echoLLM
      (RAGAgent.formatMessages
         (Denote.context (WeaviateSetup.mockData "tenant1")) "What is machine learning?")
      [EvSearch "What is machine learning?" "tenant1" 5]
    = (Returned reply, tr2) /\
    RAGAgent.processQuery (RAGAgent.mk Sample.store Fixture.echoLLM)
      "What is machine learning?" "tenant1" []
    = (Returned {| RAGAgent.answer := LLMConfig.reply_content reply;
                   RAGAgent.fileIds := ["doc001"; "doc002"];
                   RAGAgent.references := WeaviateSetup.mockData "tenant1" |}, tr2).
Proof.
  apply (RAGAgent_found_documents (RAGAgent.mk Sample.store Fixture.echoLLM)
           "What is machine learning?" "tenant1" []
           [EvSearch "What is machine learning?" "tenant1" 5]
           (WeaviateSetup.mockData "tenant1")).
  - reflexivity.
  - discriminate.
Defined.

(** X11. The answer of the RAG agent does not depend on which documents were
    found, as long as some were: two agents with the same language-model
    configuration give the same answer to a query on any two stores (and
    tenants) that find something. *)
Theorem RAGAgent_answer_ignores_documents (this1 this2 : RAGAgent.t)
    (userQuery tenant1 tenant2 : string) (tr1 tr2 tr1' tr2' : Trace)
    (docs1 docs2 : list Document.t) :
  RAGAgent.llm this1 = RAGAgent.llm this2 ->
  WeaviateSetup.searchDocuments (RAGAgent.weaviate this1) userQuery tenant1 5 tr1
  = (Returned docs1, tr1') ->
  WeaviateSetup.searchDocuments (RAGAgent.weaviate this2) userQuery tenant2 5 tr2
  = (Returned docs2, tr2') ->
  docs1 <> [] -> docs2 <> [] ->
  exists r1 r2 end1 end2,
    RAGAgent.processQuery this1 userQuery tenant1 tr1 = (Returned r1, end1) /\
    RAGAgent.processQuery this2 userQuery tenant2 tr2 = (Returned r2, end2) /\
    RAGAgent.answer r1 = RAGAgent.answer r2.
Proof.
  intros Hllm Hs1 Hs2 Hd1 Hd2.
  rewrite searchDocuments_exact in Hs1, Hs2.
  injection Hs1 as Hf1 _. injection Hs2 as Hf2 _.
  rewrite !RAGAgent_processQuery_exact. eexists _, _, _, _.
  split; [reflexivity|]. split; [reflexivity|].
  unfold Denote.ragResult. rewrite Hf1, Hf2, Hllm.
  destruct docs1 as [|d1 docs1]; [contradiction|].
  destruct docs2 as [|d2 docs2]; [contradiction|].
  reflexivity.
Qed.

Lemma RAGAgent_answer_ignores_documents_witness :
  exists r1 r2 end1 end2,
    RAGAgent.processQuery (RAGAgent.mk Sample.store Fixture.echoLLM)
      "What is deep learning?" "tenant1" [] = (Returned r1, end1) /\
    RAGAgent.processQuery (RAGAgent.mk Fixture.otherStore Fixture.echoLLM)
      "What is deep learning?" "tenant2" [] = (Returned r2, end2) /\
    RAGAgent.answer r1 = RAGAgent.answer r2.
Proof.
  apply (RAGAgent_answer_ignores_documents
           (RAGAgent.mk Sample.store Fixture.echoLLM)
           (RAGAgent.mk Fixture.otherStore Fixture.echoLLM)
           "What is deep learning?" "tenant1" "tenant2" [] []
           [EvSearch "What is deep learning?" "tenant1" 5]
           [EvSearch "What is deep learning?" "tenant2" 5]
           (WeaviateSetup.mockData "tenant1")
           [Document.mk "doc004" "What is deep learning?"
              "Deep learning uses neural networks with multiple layers." "tenant2"]);
    (reflexivity || discriminate).
Defined.

(** X12. [searchSimilarQuestions] and [fetchDocumentsByFileIds] never throw
    and never take their own [catch]: the first returns, in order, the file
    identifier, question and answer of exactly the documents
    [searchDocuments] resolves to, the second exactly the documents
    [fetchObjectsByFileIds] resolves to. *)
Theorem RAGAgent_store_adapters (this : RAGAgent.t) (query tenant : string)
    (limit : nat) (fileIds : list string) (tr : Trace) :
  (exists docs tr',
     WeaviateSetup.searchDocuments (RAGAgent.weaviate this) query tenant limit tr
     = (Returned docs, tr') /\
     RAGAgent.searchSimilarQuestions this query tenant limit tr
     = (Returned
          (map (fun doc =>
                  RAGAgent.mkSimilarQuestion (Document.fileId doc) (Document.question doc)
                                             (Document.answer doc)) docs), tr')) /\
  (exists docs tr',
     WeaviateSetup.fetchObjectsByFileIds (RAGAgent.weaviate this) fileIds tenant tr
     = (Returned docs, tr') /\
     RAGAgent.fetchDocumentsByFileIds this fileIds tenant tr = (Returned docs, tr')).
Proof.
  split.
  - unfold RAGAgent.searchSimilarQuestions. run_monad.
    rewrite searchDocuments_exact. eexists _, _. split; reflexivity.
  - unfold RAGAgent.fetchDocumentsByFileIds. run_monad.
    rewrite fetchObjectsByFileIds_exact. eexists _, _. split; reflexivity.
Qed.

(** ** More on the language-model client *)

(** X13. [LLMConfig.invoke] never throws, whatever the model does and
    whatever the messages are; on an empty array of messages it returns the
    fixed fallback reply. *)
Theorem LLMConfig_invoke_never_throws (this : LLMConfig.t) (messages : list Message)
    (tr : Trace) :
  exists reply tr',
    LLMConfig.invoke this messages tr = (Returned reply, tr') /\
    (messages = [] ->
     LLMConfig.reply_content reply
     = "I encountered an error while processing your request. Please try again.").
Proof.
  rewrite LLMConfig_invoke_exact. eexists _, _. split; [reflexivity|].
  intros ->. reflexivity.
Qed.

(** X14. When the Gemini model fails, [LLMConfig.invoke] answers in its
    place: with the reply of the mock model when the error message mentions
    "429" or "quota", and with the fixed fallback reply for any other error.
    The model was called once, on the content of the last message. *)
Theorem LLMConfig_invoke_gemini_failure (this : LLMConfig.t)
    (generateContent : string -> outcome string) (messages : list Message)
    (m : Message) (e : Error) (tr : Trace) :
  LLMConfig.backend this = LLMConfig.Gemini generateContent ->
  LLMConfig.lastMessage messages = Some m ->
  generateContent (content m) = Thrown e ->
  LLMConfig.invoke this messages tr
  = (Returned
       (if includes (message e) "429" || includes (message e) "quota"
        then LLMConfig.mkReply (LLMConfig.mockReply this (content m))
        else LLMConfig.mkReply
               "I encountered an error while processing your request. Please try again."),
     (tr ++ [EvLLMInvoke messages; EvGenerate (content m)])%list).
Proof.
  intros Hbackend Hlast Hfail. rewrite LLMConfig_invoke_exact.
  unfold Denote.llmReply, Denote.llmEvents. now rewrite Hlast, Hbackend, Hfail.
Qed.

Lemma LLMConfig_invoke_gemini_failure_witness :
  LLMConfig.invoke Sample.exhaustedLLM [mkMessage "human" "What is AI?"] []
  = (Returned
       (LLMConfig.mkReply
          "I understand your query. Let me provide you with a direct answer based on my knowledge."),
     [EvLLMInvoke [mkMessage "human" "What is AI?"]; EvGenerate "What is AI?"]).
Proof.
  apply (LLMConfig_invoke_gemini_failure Sample.exhaustedLLM
           (fun _ => Thrown (mkError "429 Too Many Requests"))
           [mkMessage "human" "What is AI?"] (mkMessage "human" "What is AI?")
           (mkError "429 Too Many Requests") []);
    reflexivity.
Defined.

(** X15. [stream] never throws and yields exactly one chunk: the reply
    [invoke] gives for the same messages. *)
Theorem LLMConfig_stream_single_chunk (this : LLMConfig.t) (messages : list Message)
    (tr : Trace) :
  exists reply tr',
    LLMConfig.invoke this messages tr = (Returned reply, tr') /\
    LLMConfig.stream this messages tr = (Returned [reply], tr').
Proof.
  unfold LLMConfig.stream. run_monad. rewrite LLMConfig_invoke_exact.
  eexists _, _. split; reflexivity.
Qed.

(** ** More on the store *)

(** X16. When the client answers, a search does not look at the text of the
    query nor at the tenant: two searches with the same limit resolve to the
    same documents. *)
Theorem searchDocuments_ignores_query_and_tenant (store : WeaviateSetup.t)
    (run : nat -> outcome (option (list Document.t)))
    (answer : option (list Document.t)) (limit : nat)
    (query1 tenant1 query2 tenant2 : string) (tr1 tr2 : Trace) :
  WeaviateSetup.client store = Some run ->
  run limit = Returned answer ->
  exists docs,
    WeaviateSetup.searchDocuments store query1 tenant1 limit tr1
    = (Returned docs, (tr1 ++ [EvSearch query1 tenant1 limit])%list) /\
    WeaviateSetup.searchDocuments store query2 tenant2 limit tr2
    = (Returned docs, (tr2 ++ [EvSearch query2 tenant2 limit])%list).
Proof.
  intros Hclient Hrun. rewrite !searchDocuments_exact.
  unfold Spec.found, Denote.searchEvents. rewrite Hclient, Hrun.
  eexists. split; reflexivity.
Qed.

Lemma searchDocuments_ignores_query_and_tenant_witness :
  exists docs,
    WeaviateSetup.searchDocuments Sample.store "What is machine learning?" "tenant1" 5 []
    = (Returned docs, [EvSearch "What is machine learning?" "tenant1" 5]) /\
    WeaviateSetup.searchDocuments Sample.store "cooking recipes" "tenant2" 5 []
    = (Returned docs, [EvSearch "cooking recipes" "tenant2" 5]).
Proof.
  apply (searchDocuments_ignores_query_and_tenant Sample.store
           (fun limit => Returned (Some (firstn limit (WeaviateSetup.mockData "tenant1"))))
           (Some (WeaviateSetup.mockData "tenant1")) 5
           "What is machine learning?" "tenant1" "cooking recipes" "tenant2" [] []);
    reflexivity.
Defined.

(** X17. Without a client, or when the client fails, a search does not throw:
    it resolves to the two stand-in documents "doc001" and "doc002", stamped
    with the tenant that was asked for, whatever the limit. *)
Theorem searchDocuments_fallback (store : WeaviateSetup.t) (query tenant : string)
    (limit : nat) (tr : Trace) :
  (WeaviateSetup.client store = None \/
   exists run e, WeaviateSetup.client store = Some run /\ run limit = Thrown e) ->
  exists docs tr',
    WeaviateSetup.searchDocuments store query tenant limit tr = (Returned docs, tr') /\
    map Document.fileId docs = ["doc001"; "doc002"] /\
    map Document.tenant docs = [tenant; tenant].
Proof.
  intros H. rewrite searchDocuments_exact. eexists _, _. split; [reflexivity|].
  unfold Spec.found.
  destruct H as [-> | (run & e & -> & ->)]; split; reflexivity.
Qed.

Lemma searchDocuments_fallback_witness :
  exists docs tr',
    WeaviateSetup.searchDocuments Fixture.brokenStore "anything" "tenant7" 1 []
    = (Returned docs, tr') /\
    map Document.fileId docs = ["doc001"; "doc002"] /\
    map Document.tenant docs = ["tenant7"; "tenant7"].
Proof.
  apply (searchDocuments_fallback Fixture.brokenStore "anything" "tenant7" 1 []).
  right. eexists _, _. split; reflexivity.
Defined.

Lemma mockObjects_fileIds (fileIds : list string) (tenant : string) :
  map Document.fileId (WeaviateSetup.mockObjects fileIds tenant) = fileIds.
Proof.
  unfold WeaviateSetup.mockObjects. rewrite map_map. simpl. apply map_id.
Qed.

Lemma mockObjects_tenant (fileIds : list string) (tenant : string) :
  Forall (fun doc => Document.tenant doc = tenant)
         (WeaviateSetup.mockObjects fileIds tenant).
Proof.
  unfold WeaviateSetup.mockObjects. apply Forall_map.
  induction fileIds; constructor; [reflexivity | assumption].
Qed.

(** X18. Without a client, or when the client fails, fetching by identifiers
    resolves to one stand-in document per identifier, in the order asked,
    each carrying its identifier and the tenant asked for. *)
Theorem fetchObjectsByFileIds_fallback (store : WeaviateSetup.t)
    (fileIds : list string) (tenant : string) (tr : Trace) :
  (WeaviateSetup.client store = None \/
   exists run e,
     WeaviateSetup.client store = Some run /\ run (length fileIds) = Thrown e) ->
  exists docs,
    WeaviateSetup.fetchObjectsByFileIds store fileIds tenant tr = (Returned docs, tr) /\
    map Document.fileId docs = fileIds /\
    Forall (fun doc => Document.tenant doc = tenant) docs.
Proof.
  intros H. rewrite fetchObjectsByFileIds_exact. eexists. split; [reflexivity|].
  unfold Denote.fetched.
  destruct H as [-> | (run & e & -> & ->)];
    (split; [apply mockObjects_fileIds | apply mockObjects_tenant]).
Qed.

Lemma fetchObjectsByFileIds_fallback_witness :
  exists docs,
    WeaviateSetup.fetchObjectsByFileIds Fixture.uninitialisedStore
      ["doc003"; "doc001"] "tenant2" []
    = (Returned docs, []) /\
    map Document.fileId docs = ["doc003"; "doc001"] /\
    Forall (fun doc => Document.tenant doc = "tenant2") docs.
Proof.
  apply (fetchObjectsByFileIds_fallback Fixture.uninitialisedStore
           ["doc003"; "doc001"] "tenant2" []).
  left. reflexivity.
Defined.

(** X19. When the client answers, fetching by identifiers uses the
    identifiers for their number only: two requests for as many identifiers
    resolve to the same documents, whichever identifiers and tenants they
    name. *)
Theorem fetchObjectsByFileIds_counts_only (store : WeaviateSetup.t)
    (run : nat -> outcome (option (list Document.t)))
    (answer : option (list Document.t))
    (fileIds1 fileIds2 : list string) (tenant1 tenant2 : string) (tr1 tr2 : Trace) :
  WeaviateSetup.client store = Some run ->
  run (length fileIds1) = Returned answer ->
  length fileIds2 = length fileIds1 ->
  exists docs,
    WeaviateSetup.fetchObjectsByFileIds store fileIds1 tenant1 tr1 = (Returned docs, tr1) /\
    WeaviateSetup.fetchObjectsByFileIds store fileIds2 tenant2 tr2 = (Returned docs, tr2).
Proof.
  intros Hclient Hrun Hlen. rewrite !fetchObjectsByFileIds_exact.
  unfold Denote.fetched. rewrite Hclient, Hlen, Hrun.
  eexists. split; reflexivity.
Qed.

Lemma fetchObjectsByFileIds_counts_only_witness :
  exists docs,
    WeaviateSetup.fetchObjectsByFileIds Sample.store ["doc002"] "tenant1" []
    = (Returned docs, []) /\
    WeaviateSetup.fetchObjectsByFileIds Sample.store ["no-such-file"] "tenant2" []
    = (Returned docs, []).
Proof.
  apply (fetchObjectsByFileIds_counts_only Sample.store
           (fun limit => Returned (Some (firstn limit (WeaviateSetup.mockData "tenant1"))))
           (Some (firstn 1 (WeaviateSetup.mockData "tenant1")))
           ["doc002"] ["no-such-file"] "tenant1" "tenant2" [] []);
    reflexivity.
Defined.

(** ** The HTTP routes *)

Lemma missing_false (x : option string) :
  Server.missing x = false -> exists s, x = Some s /\ s <> "".
Proof.
  destruct x as [[|c s]|]; simpl; intros H; try discriminate H.
  eexists. split; [reflexivity | discriminate].
Qed.



(** X22. POST /api/search never throws.  It answers 400 when the query is
    absent or empty; otherwise, once the store is initialised, it answers 200
    with the documents [searchDocuments] resolves to for the limit asked
    (default 5) and with their number as [count], never 500. *)
Theorem post_api_search_replies (this : Server.t) (body : Server.SearchBody) (tr : Trace) :
  exists reply tr',
    Server.post_api_search this body tr = (Returned reply, tr') /\
    (Server.missing (Server.search_query body) = true ->
     reply = Server.BadRequest "Query is required" /\ tr' = tr) /\
    (Server.missing (Server.search_query body) = false ->
     forall store,
       Server.weaviateSetup this = Some store ->
       exists query results,
         Server.search_query body = Some query /\
         WeaviateSetup.searchDocuments store query
           (match Server.search_tenant body with Some t => t | None => "tenant1" end)
           (match Server.search_limit body with Some n => n | None => 5 end) tr
         = (Returned results, tr') /\
         reply = Server.Ok (Server.mkSearchPayload true query results (length results))).
Proof.
  unfold Server.post_api_search. run_monad.
  destruct (Server.missing (Server.search_query body)) eqn:Hmissing.
  - eexists _, _. split; [reflexivity|]. split; [now split | discriminate].
  - destruct (missing_false _ Hmissing) as (query & Hquery & _).
    rewrite Hquery. cbn [ChartTool.or_default].
    destruct (Server.weaviateSetup this) as [store|].
    + rewrite searchDocuments_exact. eexists _, _. split; [reflexivity|].
      split; [discriminate|].
      intros _ store' Hstore. inversion Hstore; subst store'.
      eexists _, _. split; [reflexivity|]. split; [|reflexivity].
      now rewrite searchDocuments_exact.
    + eexists _, _. split; [reflexivity|]. split; discriminate.
Qed.



(** ** More on the chart tool *)

(** X24. On an object input with data, [invoke] passes the data through:
    the labels and the values of a data object are those given (an empty
    array is kept), and the defaults ("Label 1" to "Label 3", 10, 20, 30,
    "Dataset", "Chart") replace what is absent; an empty dataset label is
    replaced by "Dataset", while an empty title is kept.  When the data is a
    member of [Object.prototype] the defaults apply as well, with one
    exception: for the member "constructor" the data of the dataset is the
    function [Object.values]. *)
Theorem chart_invoke_defaults (this : ChartTool.t) (chartType : string)
    (d : ChartTool.DataValue) (title : option string) (tr : Trace) :
  exists cfg dataset msg,
    ChartTool.invoke this
      (ChartTool.InputObject (ChartTool.mkRequest chartType (Some d) title)) tr
    = (Returned (ChartTool.Success cfg msg), tr) /\
    ChartTool.datasets (ChartTool.config_data cfg) = [dataset] /\
    ChartTool.data_labels (ChartTool.config_data cfg)
    = match d with
      | JSObject.Own {| ChartTool.labels := Some labels |} => labels
      | _ => ["Label 1"; "Label 2"; "Label 3"]
      end /\
    ChartTool.dataset_data dataset
    = match d with
      | JSObject.Own {| ChartTool.values := Some values |} => ChartTool.Numbers values
      | JSObject.Own _ => ChartTool.Numbers [10; 20; 30]%Z
      | JSObject.Inherited name =>
          if String.eqb name "constructor" then ChartTool.Object_values
          else ChartTool.Numbers [10; 20; 30]%Z
      end /\
    ChartTool.dataset_label dataset
    = match d with
      | JSObject.Own {| ChartTool.label := Some (String c s) |} => String c s
      | _ => "Dataset"
      end /\
    ChartTool.text (ChartTool.plugins_title (ChartTool.plugins (ChartTool.options cfg)))
    = match title with
      | Some t => t
      | None => "Chart"
      end.
Proof.
  unfold ChartTool.invoke, ChartTool._call, ChartTool.readInput. run_monad.
  cbn [ChartTool.data ChartTool.chartType ChartTool.title ChartTool.generateChartConfig].
  eexists _, _, _. split; [reflexivity|]. cbn.
  split; [reflexivity|].
  destruct d as [[labels values label]|name]; cbn.
  - split; [now destruct labels|]. split; [now destruct values|].
    split; [|reflexivity]. now destruct label as [[|c s]|].
  - split; [reflexivity|]. split; [|split; reflexivity].
    now destruct (String.eqb name "constructor").
Qed.

(** The sample data of the chart type "constructor" is the function
    [Object]: the chart gets the default labels, and the function
    [Object.values] where the values should be. *)
Example chart_of_constructor (this : ChartTool.t) (tr : Trace) :
  ChartTool.generateSampleData "constructor" = JSObject.Inherited "constructor" /\
  exists cfg dataset msg,
    ChartTool.invoke this
      (ChartTool.InputObject
         (ChartTool.mkRequest "constructor"
            (Some (ChartTool.generateSampleData "constructor")) None)) tr
    = (Returned (ChartTool.Success cfg msg), tr) /\
    ChartTool.datasets (ChartTool.config_data cfg) = [dataset] /\
    ChartTool.data_labels (ChartTool.config_data cfg) = ["Label 1"; "Label 2"; "Label 3"] /\
    ChartTool.dataset_data dataset = ChartTool.Object_values /\
    ChartTool.backgroundColor dataset = JSObject.Inherited "constructor".
Proof.
  split; [reflexivity|]. eexists _, _, _. split; [reflexivity|].
  repeat split; reflexivity.
Qed.

(** ** The quota manager: rewriting the flag in the .env file *)

Section Quota.

Import APIQuotaManager.

Lemma startsWith_nil (s : string) : startsWith s "" = true.
Proof. now destruct s. Qed.

Lemma startsWith_KEY_D (c : ascii) (s : string) :
  startsWith (String c s) KEY = true -> c = "D"%char.
Proof.
  unfold KEY. cbn [startsWith]. intros H. apply andb_true_iff in H.
  destruct H as [H _]. apply Ascii.eqb_eq in H. now symmetry.
Qed.

(** The replacement leaves alone every prefix in which no "D" occurs. *)
Lemma startsWith_replaceFlag (value p : string) :
  Denote.lacks "D" p = true ->
  forall s, startsWith (replaceFlag value false s) p = startsWith s p.
Proof.
  induction p as [|a p IH]; intros Hp s.
  - now rewrite !startsWith_nil.
  - unfold Denote.lacks in Hp. cbn [list_ascii_of_string forallb] in Hp.
    apply andb_true_iff in Hp. destruct Hp as [Ha Hp].
    apply negb_true_iff in Ha.
    destruct s as [|c s]; [reflexivity|].
    cbn [replaceFlag]. destruct (startsWith (String c s) KEY) eqn:Hmatch.
    + apply startsWith_KEY_D in Hmatch. subst c.
      cbn [KEY append startsWith]. now rewrite Ha.
    + cbn [startsWith]. now rewrite (IH Hp).
Qed.

Lemma startsWith_KEY_replaceFlag (value : string) (c : ascii) (s : string) :
  startsWith (String c (replaceFlag value false s)) KEY = startsWith (String c s) KEY.
Proof.
  unfold KEY. cbn [startsWith]. f_equal.
  now apply startsWith_replaceFlag.
Qed.

Lemma lineBreakAt_replaceFlag (value : string) (c : ascii) (s : string) :
  lineBreakAt (String c (replaceFlag value false s)) = lineBreakAt (String c s).
Proof.
  unfold lineBreakAt, LF, CR, LS, PS. cbn [startsWith].
  rewrite !startsWith_nil.
  rewrite (startsWith_replaceFlag value
             (String "128"%char (String "168"%char EmptyString)) eq_refl).
  now rewrite (startsWith_replaceFlag value
                 (String "128"%char (String "169"%char EmptyString)) eq_refl).
Qed.

(** Re-scanning a replaced match: the key is found again and the rest of the
    old value is skipped. *)
Lemma replaceFlag_rematch (value : string) (b : bool) (rest : string) :
  replaceFlag value false ((KEY ++ Denote.flag b) ++ rest)
  = (KEY ++ value) ++ replaceFlag value true rest.
Proof. now destruct b. Qed.

(** Replacing twice is replacing once, with the value of the second. *)
Lemma replaceFlag_absorb (value : string) (b : bool) (s : string) :
  replaceFlag value false (replaceFlag (Denote.flag b) false s)
  = replaceFlag value false s /\
  replaceFlag value true (replaceFlag (Denote.flag b) true s)
  = replaceFlag value true s.
Proof.
  induction s as [|c s [IHfalse IHtrue]]; [now split|]. split.
  - cbn [replaceFlag]. destruct (startsWith (String c s) KEY) eqn:Hmatch.
    + now rewrite replaceFlag_rematch, IHtrue.
    + cbn [replaceFlag]. now rewrite startsWith_KEY_replaceFlag, Hmatch, IHfalse.
  - cbn [replaceFlag]. destruct (lineBreakAt (String c s)) eqn:Hbreak.
    + cbn [replaceFlag]. now rewrite lineBreakAt_replaceFlag, Hbreak, IHfalse.
    + exact IHtrue.
Qed.

(** The replacement neither adds nor removes the key. *)
Lemma includes_KEY_replaceFlag (value s : string) :
  includes (replaceFlag value false s) KEY = includes s KEY.
Proof.
  induction s as [|c s IH]; [reflexivity|].
  rewrite (includes_cons c s). cbn [replaceFlag].
  destruct (startsWith (String c s) KEY) eqn:Hmatch.
  - apply includes_spec. exists "", (value ++ replaceFlag value true s).
    cbn [append]. now rewrite append_assoc.
  - rewrite includes_cons, startsWith_KEY_replaceFlag, Hmatch. exact IH.
Qed.

(** After the replacement the key is followed by the new value. *)
Lemma includes_value_replaceFlag (value s : string) :
  includes s KEY = true -> includes (replaceFlag value false s) (KEY ++ value) = true.
Proof.
  induction s as [|c s IH]; [discriminate|].
  rewrite (includes_cons c s). cbn [replaceFlag].
  destruct (startsWith (String c s) KEY) eqn:Hmatch.
  - intros _. apply includes_spec. exists "", (replaceFlag value true s).
    cbn [append]. now rewrite append_assoc.
  - cbn [orb]. intros H. rewrite includes_cons, (IH H). apply orb_true_r.
Qed.

(** A text without the key is not changed by the replacement, and a line
    appended to it is scanned on its own. *)
Lemma startsWith_before_LF (p : string) :
  Denote.lacks "010" p = true ->
  forall s rest, startsWith (s ++ LF ++ rest) p = startsWith s p.
Proof.
  induction p as [|a p IH]; intros Hp s rest.
  - now rewrite !startsWith_nil.
  - unfold Denote.lacks in Hp. cbn [list_ascii_of_string forallb] in Hp.
    apply andb_true_iff in Hp. destruct Hp as [Ha Hp].
    apply negb_true_iff in Ha.
    destruct s as [|c s].
    + cbn [append LF startsWith]. now rewrite Ha.
    + cbn [append startsWith]. now rewrite (IH Hp).
Qed.

Lemma replaceFlag_without_KEY (value s rest : string) :
  includes s KEY = false ->
  replaceFlag value false (s ++ LF ++ rest) = s ++ LF ++ replaceFlag value false rest.
Proof.
  induction s as [|c s IH]; intros H.
  - reflexivity.
  - rewrite includes_cons in H. apply orb_false_iff in H. destruct H as [Hmatch H].
    cbn [append replaceFlag].
    change (String c (s ++ LF ++ rest)) with (String c s ++ LF ++ rest).
    rewrite (startsWith_before_LF KEY eq_refl), Hmatch.
    now rewrite (IH H).
Qed.

Lemma length_append (s1 s2 : string) :
  String.length (s1 ++ s2) = (String.length s1 + String.length s2)%nat.
Proof. induction s1 as [|c s1 IH]; cbn; [reflexivity | now rewrite IH]. Qed.

Lemma append_nil_r (s : string) : s ++ "" = s.
Proof.
  induction s as [|c s IH]; simpl; [reflexivity | now rewrite IH].
Qed.

Lemma replaceFlag_appended_line (value : string) (b : bool) (s : string) :
  includes s KEY = false ->
  replaceFlag value false (s ++ LF ++ KEY ++ Denote.flag b) = s ++ LF ++ KEY ++ value.
Proof.
  intros H. rewrite (replaceFlag_without_KEY value s _ H).
  do 2 f_equal.
  rewrite <- (append_nil_r (KEY ++ Denote.flag b)), replaceFlag_rematch.
  apply append_nil_r.
Qed.

Lemma includes_appended_line (s value : string) :
  includes (s ++ LF ++ KEY ++ value) KEY = true.
Proof.
  apply includes_spec. exists (s ++ LF), value. now rewrite append_assoc.
Qed.

Lemma startsWith_prefix (s p q : string) :
  startsWith s (p ++ q) = true -> startsWith s p = true.
Proof.
  rewrite !startsWith_spec. intros [post ->]. exists (q ++ post).
  apply append_assoc.
Qed.

Lemma includes_after_match (b : bool) (rest : string) :
  includes ((KEY ++ Denote.flag b) ++ rest) (KEY ++ Denote.flag (negb b))
  = includes rest (KEY ++ Denote.flag (negb b)).
Proof. now destruct b. Qed.

Lemma lineBreakAt_not_D (c : ascii) (s : string) :
  lineBreakAt (String c s) = true -> Ascii.eqb "D" c = false.
Proof.
  intros H. destruct (Ascii.eqb_spec "D"%char c) as [<-|]; [|reflexivity].
  discriminate H.
Qed.

(** After the replacement the key is nowhere followed by the other value. *)
Lemma replaceFlag_no_other_value (b : bool) (s : string) :
  includes (replaceFlag (Denote.flag b) false s) (KEY ++ Denote.flag (negb b)) = false /\
  includes (replaceFlag (Denote.flag b) true s) (KEY ++ Denote.flag (negb b)) = false.
Proof.
  induction s as [|c s [IHfalse IHtrue]]; [now destruct b|]. split.
  - cbn [replaceFlag]. destruct (startsWith (String c s) KEY) eqn:Hmatch.
    + now rewrite includes_after_match.
    + rewrite includes_cons, IHfalse, orb_false_r.
      destruct (startsWith (String c (replaceFlag (Denote.flag b) false s))
                  (KEY ++ Denote.flag (negb b))) eqn:Hstart; [|reflexivity].
      apply startsWith_prefix in Hstart.
      rewrite startsWith_KEY_replaceFlag in Hstart. congruence.
  - cbn [replaceFlag]. destruct (lineBreakAt (String c s)) eqn:Hbreak; [|exact IHtrue].
    rewrite includes_cons, IHfalse, orb_false_r.
    apply lineBreakAt_not_D in Hbreak.
    unfold KEY. cbn [append startsWith]. now rewrite Hbreak.
Qed.

End Quota.

Lemma disabledContent_twice (text : string) :
  APIQuotaManager.disabledContent (APIQuotaManager.disabledContent text)
  = APIQuotaManager.disabledContent text.
Proof.
  unfold APIQuotaManager.disabledContent.
  destruct (includes text APIQuotaManager.KEY) eqn:Hkey.
  - rewrite includes_KEY_replaceFlag, Hkey.
    apply (replaceFlag_absorb "true" true text).
  - change "true" with (Denote.flag true).
    rewrite includes_appended_line. now apply replaceFlag_appended_line.
Qed.

Lemma enabledContent_twice (text : string) :
  APIQuotaManager.enabledContent (APIQuotaManager.enabledContent text)
  = APIQuotaManager.enabledContent text.
Proof.
  unfold APIQuotaManager.enabledContent.
  destruct (includes text APIQuotaManager.KEY) eqn:Hkey.
  - rewrite includes_KEY_replaceFlag, Hkey.
    apply (replaceFlag_absorb "false" false text).
  - now rewrite Hkey.
Qed.

Lemma disabledContent_enabled (text : string) :
  APIQuotaManager.disabledContent (APIQuotaManager.enabledContent text)
  = APIQuotaManager.disabledContent text.
Proof.
  unfold APIQuotaManager.disabledContent, APIQuotaManager.enabledContent.
  destruct (includes text APIQuotaManager.KEY) eqn:Hkey.
  - rewrite includes_KEY_replaceFlag, Hkey.
    apply (replaceFlag_absorb "true" false text).
  - now rewrite Hkey.
Qed.

Lemma enabledContent_disabled (text : string) :
  APIQuotaManager.enabledContent (APIQuotaManager.disabledContent text)
  = if includes text APIQuotaManager.KEY
    then APIQuotaManager.enabledContent text
    else text ++ APIQuotaManager.LF ++ APIQuotaManager.KEY ++ "false".
Proof.
  unfold APIQuotaManager.disabledContent, APIQuotaManager.enabledContent.
  destruct (includes text APIQuotaManager.KEY) eqn:Hkey.
  - rewrite includes_KEY_replaceFlag, Hkey.
    apply (replaceFlag_absorb "false" true text).
  - change "true" with (Denote.flag true).
    rewrite includes_appended_line. now apply replaceFlag_appended_line.
Qed.

(** X25. Either command of the quota manager is idempotent on the .env file:
    running it a second time changes nothing. *)
Theorem quota_commands_idempotent (file : APIQuotaManager.EnvFile) :
  APIQuotaManager.disableGoogleAPI (APIQuotaManager.disableGoogleAPI file)
  = APIQuotaManager.disableGoogleAPI file /\
  APIQuotaManager.enableGoogleAPI (APIQuotaManager.enableGoogleAPI file)
  = APIQuotaManager.enableGoogleAPI file.
Proof.
  unfold APIQuotaManager.disableGoogleAPI, APIQuotaManager.enableGoogleAPI,
    APIQuotaManager.rewriteFile.
  destruct file as [[text|] [|]]; cbn; split; try reflexivity.
  - now rewrite disabledContent_twice.
  - now rewrite enabledContent_twice.
Qed.

(** X26. The last command wins: disabling after enabling leaves the file as
    disabling alone does, and, on a file that already has the flag, enabling
    after disabling leaves it as enabling alone does. *)
Theorem quota_last_command_wins (file : APIQuotaManager.EnvFile) :
  APIQuotaManager.disableGoogleAPI (APIQuotaManager.enableGoogleAPI file)
  = APIQuotaManager.disableGoogleAPI file /\
  (forall text,
     APIQuotaManager.envContent file = Some text ->
     includes text "DISABLE_GOOGLE_API=" = true ->
     APIQuotaManager.enableGoogleAPI (APIQuotaManager.disableGoogleAPI file)
     = APIQuotaManager.enableGoogleAPI file).
Proof.
  unfold APIQuotaManager.disableGoogleAPI, APIQuotaManager.enableGoogleAPI,
    APIQuotaManager.rewriteFile.
  destruct file as [[text|] [|]]; cbn; split; try reflexivity;
    try (intros text' H; discriminate H).
  - now rewrite disabledContent_enabled.
  - intros text' H Hkey. inversion H; subst text'.
    rewrite enabledContent_disabled.
    fold APIQuotaManager.KEY in Hkey. now rewrite Hkey.
Qed.

(** X27. Disabling and then enabling does not restore a file that had no
    flag: where enabling alone gives a text without "DISABLE_GOOGLE_API=",
    disabling and then enabling gives that text followed by the line
    "DISABLE_GOOGLE_API=false", which is a different text. *)
Theorem quota_disable_enable_adds_line (file : APIQuotaManager.EnvFile) (text : string) :
  APIQuotaManager.envContent file = Some text ->
  APIQuotaManager.writable file = true ->
  includes text "DISABLE_GOOGLE_API=" = false ->
  exists enabled,
    APIQuotaManager.envContent (APIQuotaManager.enableGoogleAPI file) = Some enabled /\
    includes enabled "DISABLE_GOOGLE_API=" = false /\
    APIQuotaManager.envContent
      (APIQuotaManager.enableGoogleAPI (APIQuotaManager.disableGoogleAPI file))
    = Some (enabled ++ APIQuotaManager.LF ++ "DISABLE_GOOGLE_API=false") /\
    APIQuotaManager.enableGoogleAPI (APIQuotaManager.disableGoogleAPI file)
    <> APIQuotaManager.enableGoogleAPI file.
Proof.
  intros Hcontent Hwritable Hkey.
  unfold APIQuotaManager.disableGoogleAPI, APIQuotaManager.enableGoogleAPI,
    APIQuotaManager.rewriteFile.
  rewrite Hcontent, Hwritable. cbn.
  fold APIQuotaManager.KEY in Hkey.
  rewrite enabledContent_disabled, Hkey.
  unfold APIQuotaManager.enabledContent. rewrite Hkey.
  exists text. split; [reflexivity|]. split; [exact Hkey|]. split; [reflexivity|].
  intros H. injection H as H.
  apply (f_equal String.length) in H. rewrite length_append in H.
  cbn in H. lia.
Qed.

Lemma quota_disable_enable_adds_line_witness :
  exists enabled,
    APIQuotaManager.envContent
      (APIQuotaManager.enableGoogleAPI (APIQuotaManager.mkEnvFile (Some "PORT=3000") true))
    = Some enabled /\
    includes enabled "DISABLE_GOOGLE_API=" = false /\
    APIQuotaManager.envContent
      (APIQuotaManager.enableGoogleAPI
         (APIQuotaManager.disableGoogleAPI
            (APIQuotaManager.mkEnvFile (Some "PORT=3000") true)))
    = Some (enabled ++ APIQuotaManager.LF ++ "DISABLE_GOOGLE_API=false") /\
    APIQuotaManager.enableGoogleAPI
      (APIQuotaManager.disableGoogleAPI
         (APIQuotaManager.mkEnvFile (Some "PORT=3000") true))
    <> APIQuotaManager.enableGoogleAPI (APIQuotaManager.mkEnvFile (Some "PORT=3000") true).
Proof.
  apply (quota_disable_enable_adds_line
           (APIQuotaManager.mkEnvFile (Some "PORT=3000") true) "PORT=3000");
    reflexivity.
Defined.

(** X28. On a readable and writable file, after [disableGoogleAPI] the text
    contains "DISABLE_GOOGLE_API=true" and nowhere
    "DISABLE_GOOGLE_API=false"; after [enableGoogleAPI] it nowhere contains
    "DISABLE_GOOGLE_API=true". *)
Theorem quota_flag_after_command (file : APIQuotaManager.EnvFile) (text : string) :
  APIQuotaManager.envContent file = Some text ->
  APIQuotaManager.writable file = true ->
  (exists disabled,
     APIQuotaManager.envContent (APIQuotaManager.disableGoogleAPI file) = Some disabled /\
     includes disabled "DISABLE_GOOGLE_API=true" = true /\
     includes disabled "DISABLE_GOOGLE_API=false" = false) /\
  (exists enabled,
     APIQuotaManager.envContent (APIQuotaManager.enableGoogleAPI file) = Some enabled /\
     includes enabled "DISABLE_GOOGLE_API=true" = false).
Proof.
  intros Hcontent Hwritable.
  unfold APIQuotaManager.disableGoogleAPI, APIQuotaManager.enableGoogleAPI,
    APIQuotaManager.rewriteFile.
  rewrite Hcontent, Hwritable. cbn. split.
  - eexists. split; [reflexivity|].
    unfold APIQuotaManager.disabledContent.
    destruct (includes text APIQuotaManager.KEY) eqn:Hkey.
    + split.
      * apply (includes_value_replaceFlag "true" text Hkey).
      * apply (replaceFlag_no_other_value true text).
    + split.
      * apply includes_spec. exists (text ++ APIQuotaManager.LF), "".
        now rewrite append_assoc.
      * change "true" with (Denote.flag true).
        rewrite <- (replaceFlag_appended_line (Denote.flag true) true text Hkey).
        apply (replaceFlag_no_other_value true).
  - eexists. split; [reflexivity|].
    unfold APIQuotaManager.enabledContent.
    destruct (includes text APIQuotaManager.KEY) eqn:Hkey.
    + apply (replaceFlag_no_other_value false text).
    + destruct (includes text "DISABLE_GOOGLE_API=true") eqn:Hflag; [|reflexivity].
      assert (includes text APIQuotaManager.KEY = true)
        by (apply (includes_trans _ _ _ Hflag); reflexivity).
      congruence.
Qed.

Lemma quota_flag_after_command_witness :
  (exists disabled,
     APIQuotaManager.envContent
       (APIQuotaManager.disableGoogleAPI
          (APIQuotaManager.mkEnvFile
             (Some ("# DISABLE_GOOGLE_API=false" ++ APIQuotaManager.LF
                    ++ "DISABLE_GOOGLE_API=false # DISABLE_GOOGLE_API=false")) true))
     = Some disabled /\
     includes disabled "DISABLE_GOOGLE_API=true" = true /\
     includes disabled "DISABLE_GOOGLE_API=false" = false) /\
  (exists enabled,
     APIQuotaManager.envContent
       (APIQuotaManager.enableGoogleAPI
          (APIQuotaManager.mkEnvFile
             (Some ("# DISABLE_GOOGLE_API=false" ++ APIQuotaManager.LF
                    ++ "DISABLE_GOOGLE_API=false # DISABLE_GOOGLE_API=false")) true))
     = Some enabled /\
     includes enabled "DISABLE_GOOGLE_API=true" = false).
Proof.
  apply (quota_flag_after_command
           (APIQuotaManager.mkEnvFile
              (Some ("# DISABLE_GOOGLE_API=false" ++ APIQuotaManager.LF
                     ++ "DISABLE_GOOGLE_API=false # DISABLE_GOOGLE_API=false")) true)
           ("# DISABLE_GOOGLE_API=false" ++ APIQuotaManager.LF
            ++ "DISABLE_GOOGLE_API=false # DISABLE_GOOGLE_API=false"));
    reflexivity.
Defined.
